(** * currency_converter.py: the rate cache and the two rate sources

    A shallow embedding of the class [CurrencyConverter] of
    [src/currency_converter.py] and the properties of its rate resolution
    and caching.

    Conventions of the model.
    - A Python value that comes out of [response.json()] is a [json] term;
      [None] is [JNull].  A [dict] is a [gmap]: its keys are unique, as in
      Python, and the iteration order (which the code only ever feeds to
      [sorted]) is not kept.
    - Numbers are kept abstract ([PyNumber]): the code only tests them for
      truth, divides two of them and multiplies two of them.
    - Strings are byte strings and [upper] is [str.upper] on ASCII letters,
      which is what currency codes are made of.
    - [datetime] values and [timedelta] values are microsecond counts in [Z].
    - The network and the clock are oracles of a [World]; the trace of what
      was asked is kept next to the converter in [Sys].
    - Console output ([print]) is not modelled. *)

From Stdlib Require Import ZArith String Ascii PrimFloat.
From stdpp Require Import gmap strings list fin_maps sorting.

Set Warnings "-register-all,-inexact-float".

Local Open Scope string_scope.
Local Open Scope Z_scope.

(** ** Exceptions and results *)

Inductive exn :=
  | RequestException
  | JSONDecodeError
  | TypeError
  | KeyError
  | AttributeError
  | ZeroDivisionError
  | OverflowError.

Inductive outcome (A : Type) :=
  | Return (a : A)
  | Raise (e : exn).
Arguments Return {A} a.
Arguments Raise {A} e.

Definition obind {A B} (o : outcome A) (k : A -> outcome B) : outcome B :=
  match o with
  | Return a => k a
  | Raise e => Raise e
  end.

Notation "x <~ o ;; k" := (obind o (fun x => k))
  (at level 100, o at next level, right associativity).

(** ** Numbers

    What the converter needs from Python's [int] and [float]. *)

Class PyNumber (num : Type) := {
  (** [bool(x)], that is [x != 0] *)
  num_truth : num -> bool;
  (** [True] and [False] used as numbers *)
  num_of_bool : bool -> num;
  (** the literal [1.0] *)
  num_one : num;
  (** [x / y]; raises [ZeroDivisionError] or [OverflowError] *)
  num_truediv : num -> num -> outcome num;
  (** [x * y]; raises [OverflowError] *)
  num_mul : num -> num -> outcome num
}.

(** ** Strings *)

Definition upper_ascii (c : ascii) : ascii :=
  let n := N_of_ascii c in
  if ((97 <=? n) && (n <=? 122))%N then ascii_of_N (n - 32) else c.

(** [s.upper()] *)
Fixpoint upper (s : string) : string :=
  match s with
  | EmptyString => EmptyString
  | String c s' => String (upper_ascii c) (upper s')
  end.

(** [p in s] for two strings: [p] occurs in [s] *)
Fixpoint is_infix (p s : string) : bool :=
  String.prefix p s ||
  match s with
  | EmptyString => false
  | String _ s' => is_infix p s'
  end.

(** [sorted(l)] for a list of strings: ascending in the order of [str],
    which compares character by character *)
Definition py_sorted (l : list string) : list string :=
  merge_sort String.le l.

(** [timedelta(minutes=m)] *)
Definition timedelta_minutes (m : Z) : Z := m * 60 * 1000000.

Section Model.

Context {num : Type} `{PyNumber num}.

(** ** Values *)

Inductive json :=
  | JNull
  | JBool (b : bool)
  | JNum (n : num)
  | JStr (s : string)
  | JArr (l : list json)
  | JObj (m : gmap string json).

(** [bool(v)] *)
Definition truth (v : json) : bool :=
  match v with
  | JNull => false
  | JBool b => b
  | JNum n => num_truth n
  | JStr s => negb (String.eqb s "")
  | JArr l => match l with [] => false | _ => true end
  | JObj m => match map_to_list m with [] => false | _ => true end
  end.

(** [key in v] for a string [key] *)
Definition contains (key : string) (v : json) : outcome bool :=
  match v with
  | JObj m => Return (match m !! key with Some _ => true | None => false end)
  | JArr l =>
      Return (existsb (fun x => match x with
                                | JStr s => String.eqb s key
                                | _ => false
                                end) l)
  | JStr s => Return (is_infix key s)
  | JNull | JBool _ | JNum _ => Raise TypeError
  end.

(** [v[key]] for a string [key] *)
Definition subscript (v : json) (key : string) : outcome json :=
  match v with
  | JObj m => match m !! key with
              | Some x => Return x
              | None => Raise KeyError
              end
  | _ => Raise TypeError
  end.

(** [v[key] = x] for a string [key]: the value [v] after the assignment *)
Definition setitem (v : json) (key : string) (x : json) : outcome json :=
  match v with
  | JObj m => Return (JObj (<[key := x]> m))
  | _ => Raise TypeError
  end.

(** [v.keys()] as a list *)
Definition keys (v : json) : outcome (list string) :=
  match v with
  | JObj m => Return ((map_to_list m).*1)
  | _ => Raise AttributeError
  end.

Definition as_number (v : json) : option num :=
  match v with
  | JNum n => Some n
  | JBool b => Some (num_of_bool b)
  | _ => None
  end.

(** [a / b] *)
Definition truediv (a b : json) : outcome num :=
  match as_number a, as_number b with
  | Some x, Some y => num_truediv x y
  | _, _ => Raise TypeError
  end.

(** [amount * rate] for a [float] amount, as [convert] declares it *)
Definition mul (amount : num) (rate : json) : outcome json :=
  match as_number rate with
  | Some r => p <~ num_mul amount r ;; Return (JNum p)
  | None => Raise TypeError
  end.

(** ** The world and the converter *)

(** What [requests.get(url, timeout=10)], [raise_for_status()] and
    [response.json()] come to, taken together. *)
Inductive http_result :=
  | RequestFailed          (* a [RequestException]: timeout, connection, status *)
  | BodyInvalid            (* [response.json()] raised [JSONDecodeError] *)
  | Parsed (data : json).

Record World := {
  (** [datetime.now()] at the n-th reading of the clock *)
  clock : nat -> Z;
  (** the answer to a GET of a URL when n requests were sent before it *)
  net : nat -> string -> http_result
}.

Record CurrencyConverter := {
  api_url : string;
  cache : gmap string json;
  cache_timestamps : gmap string Z;
  cache_duration : Z
}.

Record Sys := {
  self : CurrencyConverter;
  reads : nat;             (* clock readings so far *)
  sent : list string       (* URLs requested so far, oldest first *)
}.

(** [CurrencyConverter(api_url)] *)
Definition init (url : string) : CurrencyConverter :=
  {| api_url := url;
     cache := ∅;
     cache_timestamps := ∅;
     cache_duration := timedelta_minutes 5 |}.

Definition boot (url : string) : Sys :=
  {| self := init url; reads := 0; sent := [] |}.

(** ** The monad of methods: state, oracles and exceptions *)

Definition M (A : Type) : Type := World -> Sys -> outcome A * Sys.

Definition mret {A} (a : A) : M A := fun _ s => (Return a, s).

Definition mbind {A B} (m : M A) (k : A -> M B) : M B :=
  fun w s =>
    match m w s with
    | (Return a, s') => k a w s'
    | (Raise e, s') => (Raise e, s')
    end.

Definition lift {A} (o : outcome A) : M A := fun _ s => (o, s).

(** [try: m  except ...: h e], where [h e = None] when no clause matches *)
Definition try_except {A} (m : M A) (h : exn -> option (M A)) : M A :=
  fun w s =>
    match m w s with
    | (Return a, s') => (Return a, s')
    | (Raise e, s') =>
        match h e with
        | Some k => k w s'
        | None => (Raise e, s')
        end
    end.

(** A computation that does not touch the state. *)
Definition stateless {A} (m : M A) : Prop := forall w s, (m w s).2 = s.

Definition get_self : M CurrencyConverter := fun _ s => (Return (self s), s).

Definition put_self (c : CurrencyConverter) : M unit :=
  fun _ s => (Return tt, {| self := c; reads := reads s; sent := sent s |}).

(** The state after one more reading of the clock. *)
Definition tick (s : Sys) : Sys :=
  {| self := self s; reads := S (reads s); sent := sent s |}.

(** The state after one more request. *)
Definition asked (url : string) (s : Sys) : Sys :=
  {| self := self s; reads := reads s; sent := sent s ++ [url] |}.

(** [datetime.now()] *)
Definition datetime_now : M Z :=
  fun w s => (Return (clock w (reads s)), tick s).

(** [requests.get(url, timeout=10)], [raise_for_status()], [json()] *)
Definition http_get_json (url : string) : M json :=
  fun w s =>
    match net w (length (sent s)) url with
    | RequestFailed => (Raise RequestException, asked url s)
    | BodyInvalid => (Raise JSONDecodeError, asked url s)
    | Parsed data => (Return data, asked url s)
    end.

Notation "x <- m ;; k" := (mbind m (fun x => k))
  (at level 100, m at next level, right associativity).

(** ** Source B: the national-bank feed *)

Definition cbr_url : string := "https://www.cbr-xml-daily.ru/daily_json.js".

(** [valute[code]["Value"] / valute[code]["Nominal"]] *)
Definition per_unit (valute : json) (code : string) : outcome num :=
  entry <~ subscript valute code ;;
  value <~ subscript entry "Value" ;;
  entry' <~ subscript valute code ;;
  nominal <~ subscript entry' "Nominal" ;;
  truediv value nominal.

(** Lines 57 to 69: the patch read off the parsed feed. *)
Definition rub_rates_of (data : json) : outcome (option (gmap string num)) :=
  has_valute <~ contains "Valute" data ;;
  if negb has_valute then Return None
  else
    let rates : gmap string num := ∅ in
    valute <~ subscript data "Valute" ;;
    has_usd <~ contains "USD" valute ;;
    rates <~ (if has_usd
              then q <~ per_unit valute "USD" ;; Return (<["USD" := q]> rates)
              else Return rates) ;;
    has_eur <~ contains "EUR" valute ;;
    rates <~ (if has_eur
              then q <~ per_unit valute "EUR" ;; Return (<["EUR" := q]> rates)
              else Return rates) ;;
    Return (Some rates).

Definition _get_rub_rate_from_cbr : M (option (gmap string num)) :=
  try_except
    (data <- http_get_json cbr_url ;;
     lift (rub_rates_of data))
    (fun _ => Some (mret None)).

(** What [_get_rub_rate_from_cbr] makes of the answer of the feed. *)
Definition source_b (r : http_result) : option (gmap string num) :=
  match r with
  | Parsed data => match rub_rates_of data with
                   | Return patch => patch
                   | Raise _ => None
                   end
  | RequestFailed | BodyInvalid => None
  end.

(** The ways Source B fails: the request, the parsing of the body, or the
    fields the code reads in it. *)
Inductive cbr_failure : http_result -> Prop :=
  | cbr_network : cbr_failure RequestFailed
  | cbr_parse : cbr_failure BodyInvalid
  | cbr_no_valute data :
      contains "Valute" data = Return false -> cbr_failure (Parsed data)
  | cbr_fields data e :
      rub_rates_of data = Raise e -> cbr_failure (Parsed data).

(** ** Source A and the cache *)

(** Lines 17 to 21: the entry of the cache that is still fresh, if any. *)
Definition fresh_entry (base_currency : string) (force_update : bool)
  : M (option json) :=
  c <- get_self ;;
  match negb force_update, cache c !! base_currency with
  | true, Some table =>
      match cache_timestamps c !! base_currency with
      | Some stamp =>
          now <- datetime_now ;;
          let cache_age := now - stamp in
          if cache_age <? cache_duration c then mret (Some table)
          else mret None
      | None => mret None
      end
  | _, _ => mret None
  end.

(** [if rub_data:] on the result of Source B *)
Definition truth_patch (rub_data : option (gmap string num)) : bool :=
  match rub_data with
  | Some m => match map_to_list m with [] => false | _ => true end
  | None => false
  end.

(** [data and "rates" in data and "RUB" in data["rates"]] *)
Definition has_rub (data : json) : outcome bool :=
  if truth data then
    has_rates <~ contains "rates" data ;;
    if has_rates then
      rates <~ subscript data "rates" ;;
      contains "RUB" rates
    else Return false
  else Return false.

(** [data["rates"]["RUB"] = rate]: [data] after the assignment; the
    dictionary under ["rates"] is changed in place, and [data] still holds
    it. *)
Definition set_rub (data : json) (rate : num) : outcome json :=
  rates <~ subscript data "rates" ;;
  rates' <~ setitem rates "RUB" (JNum rate) ;;
  setitem data "rates" rates'.

(** Lines 31 to 35: the table of Source A after the patch of Source B. *)
Definition apply_patch (base_currency : string) (data : json)
    (rub_data : option (gmap string num)) : outcome json :=
  match truth_patch rub_data, rub_data with
  | true, Some patch =>
      match String.eqb (upper base_currency) "USD", patch !! "USD" with
      | true, Some usd => set_rub data usd
      | _, _ =>
          match String.eqb (upper base_currency) "EUR", patch !! "EUR" with
          | true, Some eur => set_rub data eur
          | _, _ => Return data
          end
      end
  | _, _ => Return data
  end.

(** Lines 29 to 35 *)
Definition reconcile (base_currency : string) (data : json) : M json :=
  rub <- lift (has_rub data) ;;
  if rub then
    rub_data <- _get_rub_rate_from_cbr ;;
    lift (apply_patch base_currency data rub_data)
  else mret data.

(** The test of lines 17 to 21: the cache answers without a fetch. *)
Definition cache_hit (w : World) (s : Sys) (base_currency : string)
    (force_update : bool) : bool :=
  negb force_update &&
  match cache (self s) !! base_currency,
        cache_timestamps (self s) !! base_currency with
  | Some _, Some stamp =>
      clock w (reads s) - stamp <? cache_duration (self s)
  | _, _ => false
  end.

(** The state after lines 17 to 21: the clock was read if there was a
    stamp to compare it with. *)
Definition looked (s : Sys) (base_currency : string) (force_update : bool)
  : Sys :=
  match negb force_update,
        cache (self s) !! base_currency,
        cache_timestamps (self s) !! base_currency with
  | true, Some _, Some _ => tick s
  | _, _, _ => s
  end.

(** The state after lines 37 and 38. *)
Definition stored (base_currency : string) (data : json) (s : Sys) (now : Z)
  : Sys :=
  {| self := {| api_url := api_url (self s);
                cache := <[base_currency := data]> (cache (self s));
                cache_timestamps :=
                  <[base_currency := now]> (cache_timestamps (self s));
                cache_duration := cache_duration (self s) |};
     reads := S (reads s);
     sent := sent s |}.

(** Line 29 on the answer of Source A: Source B is asked next. *)
Definition asks_source_b (r : http_result) : bool :=
  match r with
  | Parsed data => match has_rub data with
                   | Return true => true
                   | _ => false
                   end
  | RequestFailed | BodyInvalid => false
  end.

(** [f"{self.api_url}/{base_currency}"] *)
Definition source_a_url (c : CurrencyConverter) (base_currency : string)
  : string :=
  api_url c ++ "/" ++ base_currency.

Definition get_exchange_rates (base_currency : string) (force_update : bool)
  : M json :=
  try_except
    (hit <- fresh_entry base_currency force_update ;;
     match hit with
     | Some table => mret table
     | None =>
         c <- get_self ;;
         let url := source_a_url c base_currency in
         data <- http_get_json url ;;
         data <- reconcile base_currency data ;;
         c <- get_self ;;
         _ <- put_self {| api_url := api_url c;
                          cache := <[base_currency := data]> (cache c);
                          cache_timestamps := cache_timestamps c;
                          cache_duration := cache_duration c |} ;;
         now <- datetime_now ;;
         c <- get_self ;;
         _ <- put_self {| api_url := api_url c;
                          cache := cache c;
                          cache_timestamps :=
                            <[base_currency := now]> (cache_timestamps c);
                          cache_duration := cache_duration c |} ;;
         mret data
     end)
    (fun e => match e with
              | RequestException => Some (mret JNull)
              | JSONDecodeError => Some (mret JNull)
              | _ => None
              end).

Definition clear_cache : M unit :=
  c <- get_self ;;
  put_self {| api_url := api_url c;
              cache := ∅;
              cache_timestamps := ∅;
              cache_duration := cache_duration c |}.

(** ** The three queries *)

(** ["RUB" in [from_currency.upper(), to_currency.upper()]] *)
Definition rub_involved (from_currency to_currency : string) : bool :=
  String.eqb "RUB" (upper from_currency) || String.eqb "RUB" (upper to_currency).

(** [not rates_data or 'rates' not in rates_data] *)
Definition no_rates (rates_data : json) : M bool :=
  if negb (truth rates_data) then mret true
  else has_rates <- lift (contains "rates" rates_data) ;; mret (negb has_rates).

Definition convert (amount : num) (from_currency to_currency : string)
    (force_update : bool) : M json :=
  if String.eqb (upper from_currency) (upper to_currency) then mret (JNum amount)
  else
    let force_update :=
      if rub_involved from_currency to_currency then true else force_update in
    rates_data <- get_exchange_rates (upper from_currency) force_update ;;
    failed <- no_rates rates_data ;;
    if failed then mret JNull
    else
      rates <- lift (subscript rates_data "rates") ;;
      known <- lift (contains (upper to_currency) rates) ;;
      if negb known then mret JNull
      else
        exchange_rate <- lift (subscript rates (upper to_currency)) ;;
        lift (mul amount exchange_rate).

Definition get_available_currencies (base_currency : string)
  : M (list string) :=
  rates_data <- get_exchange_rates (upper base_currency) false ;;
  failed <- no_rates rates_data ;;
  if failed then mret []
  else
    rates <- lift (subscript rates_data "rates") ;;
    currencies <- lift (keys rates) ;;
    let currencies := (currencies ++ [upper base_currency])%list in
    mret (py_sorted currencies).

Definition get_rate (from_currency to_currency : string) (force_update : bool)
  : M json :=
  if String.eqb (upper from_currency) (upper to_currency) then mret (JNum num_one)
  else
    let force_update :=
      if rub_involved from_currency to_currency then true else force_update in
    rates_data <- get_exchange_rates (upper from_currency) force_update ;;
    failed <- no_rates rates_data ;;
    if failed then mret JNull
    else
      rates <- lift (subscript rates_data "rates") ;;
      known <- lift (contains (upper to_currency) rates) ;;
      if negb known then mret JNull
      else lift (subscript rates (upper to_currency)).

(** ** Sequences of calls *)

Inductive call :=
  | Get_exchange_rates (base_currency : string) (force_update : bool)
  | Clear_cache
  | Convert (amount : num) (from_currency to_currency : string)
      (force_update : bool)
  | Get_available_currencies (base_currency : string)
  | Get_rate (from_currency to_currency : string) (force_update : bool).

(** The state after a call, whether it returned or raised. *)
Definition after (c : call) (w : World) (s : Sys) : Sys :=
  match c with
  | Get_exchange_rates b f => (get_exchange_rates b f w s).2
  | Clear_cache => (clear_cache w s).2
  | Convert a f t u => (convert a f t u w s).2
  | Get_available_currencies b => (get_available_currencies b w s).2
  | Get_rate f t u => (get_rate f t u w s).2
  end.

Definition run (cs : list call) (w : World) (s : Sys) : Sys :=
  foldl (fun s c => after c w s) s cs.

(** The calls that the interactive shell makes: everything but a direct
    [get_exchange_rates]. *)
Definition is_query (c : call) : bool :=
  match c with
  | Get_exchange_rates _ _ => false
  | _ => true
  end.

(** Two calls of the shell that differ in the letter case of their
    currency codes only. *)
Inductive same_call : call -> call -> Prop :=
  | same_clear_cache : same_call Clear_cache Clear_cache
  | same_convert amount from to from' to' force :
      upper from = upper from' -> upper to = upper to' ->
      same_call (Convert amount from to force) (Convert amount from' to' force)
  | same_get_available_currencies base base' :
      upper base = upper base' ->
      same_call (Get_available_currencies base) (Get_available_currencies base')
  | same_get_rate from to from' to' force :
      upper from = upper from' -> upper to = upper to' ->
      same_call (Get_rate from to force) (Get_rate from' to' force).

(** The cache and the stamps have the same keys. *)
Definition in_step (s : Sys) : Prop :=
  dom (cache (self s)) = dom (cache_timestamps (self s)).

(** Every key of the cache is in upper case. *)
Definition upper_keys (s : Sys) : Prop :=
  forall k, is_Some (cache (self s) !! k) -> upper k = k.

(** An answer of Source A in the shape of a table: a dictionary whose
    ["rates"], when there, is a dictionary. *)
Definition table_shaped (data : json) : Prop :=
  exists d, data = JObj d /\
            (d !! "rates" = None \/ exists r, d !! "rates" = Some (JObj r)).

(** The requests one call may add to the log: none, the one to Source A,
    or the one to Source A followed by the one to Source B. *)
Definition requests_of_a_call (url : string) (new : list string) : Prop :=
  new = [] \/ new = [url] \/ new = [url; cbr_url].

End Model.

Arguments json num : clear implicits.
Arguments http_result num : clear implicits.
Arguments World num : clear implicits.
Arguments CurrencyConverter num : clear implicits.
Arguments Sys num : clear implicits.
Arguments call num : clear implicits.

(** ** Floats as numbers, and the data of the examples *)

Module Float.

Import PrimFloat.

#[global] Instance number : PyNumber float := {|
  num_truth x := negb (PrimFloat.eqb x 0%float);
  num_of_bool b := if b then 1%float else 0%float;
  num_one := 1%float;
  num_truediv x y :=
    if PrimFloat.eqb y 0%float then Raise ZeroDivisionError
    else Return (PrimFloat.div x y);
  num_mul x y := Return (PrimFloat.mul x y)
|}.

Definition api : string := "https://api.exchangerate-api.com/v4/latest".

Definition rates (l : list (string * float)) : json float :=
  JObj {[ "rates" := JObj (list_to_map (prod_map id JNum <$> l)) ]}.

(** The feed of the national bank quoting the dollar at [value] for
    [nominal] units. *)
Definition feed (value nominal : float) : json float :=
  JObj {[ "Valute" :=
            JObj {[ "USD" := JObj {[ "Value" := JNum value;
                                     "Nominal" := JNum nominal ]} ]} ]}.

(** A world whose clock stands still, where Source A answers [a] to every
    request and Source B answers [b]. *)
Definition world (a b : http_result float) : World float :=
  {| clock := fun _ => 0;
     net := fun _ url => if String.eqb url cbr_url then b else a |}.

(** The table and the feed of the example of the specification. *)
Definition usd_rates : gmap string (json float) :=
  list_to_map [("EUR", JNum 0.9%float); ("RUB", JNum 95%float)].

Definition usd_table : gmap string (json float) :=
  {[ "rates" := JObj usd_rates ]}.

Definition usd_feed : json float := feed 91.5%float 1%float.

(** A table that lists its own base currency, as the public API does. *)
Definition usd_rates_with_base : gmap string (json float) :=
  list_to_map [("USD", JNum 1%float); ("EUR", JNum 0.9%float)].

(** A body that parses and holds no rates. *)
Definition error_body : json float :=
  JObj {[ "result" := JStr "error"; "error-type" := JStr "unsupported-code" ]}.

(** Source A answers with the table of the example; Source B with the feed
    of the example, with nothing, or not at all. *)
Definition patched_world : World float :=
  world (Parsed (JObj usd_table)) (Parsed usd_feed).

Definition unpatched_world : World float :=
  world (Parsed (JObj usd_table)) RequestFailed.

Definition listed_world : World float :=
  world (Parsed (JObj {[ "rates" := JObj usd_rates_with_base ]})) RequestFailed.

Definition error_world : World float :=
  world (Parsed error_body) RequestFailed.

Definition down_world : World float :=
  world RequestFailed RequestFailed.

(** The state after a first fetch of the dollar table. *)
Definition warm (w : World float) : Sys float :=
  run [Get_exchange_rates "USD" false] w (boot api).



(** A feed whose entry for the euro has a lot size of zero. *)
Definition bad_valute : json float :=
  JObj {[ "USD" := JObj {[ "Value" := JNum 91.5%float;
                           "Nominal" := JNum 1%float ]};
          "EUR" := JObj {[ "Value" := JNum 100%float;
                           "Nominal" := JNum 0%float ]} ]}.

Definition bad_feed : json float := JObj {[ "Valute" := bad_valute ]}.

End Float.

(** * Properties *)

(** ** Upper case *)

Lemma upper_ascii_idem (c : ascii) : upper_ascii (upper_ascii c) = upper_ascii c.
Proof. by destruct c as [[] [] [] [] [] [] [] []]. Qed.

Lemma upper_idem (s : string) : upper (upper s) = upper s.
Proof.
  induction s as [|c s IH]; simpl; [done|].
  by rewrite upper_ascii_idem, IH.
Qed.

(** ** Sorting *)

Lemma py_sorted_sorted (l : list string) : Sorted String.le (py_sorted l).
Proof. apply (Sorted_merge_sort String.le). Qed.

Lemma py_sorted_perm (l : list string) : py_sorted l ≡ₚ l.
Proof. apply (merge_sort_Permutation String.le). Qed.

(** The order in which a dictionary hands out its keys does not show in the
    sorted list. *)
Lemma py_sorted_order (l1 l2 : list string) :
  l1 ≡ₚ l2 -> py_sorted l1 = py_sorted l2.
Proof.
  intros Hp. apply (Sorted_unique String.le); try apply py_sorted_sorted.
  by rewrite !py_sorted_perm.
Qed.

Section Facts.

Context {num : Type} `{PyNumber num}.

Implicit Types (w : World num) (s : Sys num) (data table : json num).
Implicit Types (c : call num) (cs : list (call num)).

(** ** How the methods run *)

Lemma truth_obj (m : gmap string (json num)) :
  truth (JObj m) = false <-> m = ∅.
Proof.
  simpl. rewrite <- map_to_list_empty_iff.
  destruct (map_to_list m); split; congruence.
Qed.

Lemma truth_patch_false (o : option (gmap string num)) :
  truth_patch o = false <-> o = None \/ o = Some ∅.
Proof.
  destruct o as [m|]; simpl; [|split; [by left|done]].
  destruct (map_to_list m) eqn:E.
  - apply map_to_list_empty_iff in E as ->. split; [by right|done].
  - split; [done|]. intros [?|[= ->]]; [done|].
    by rewrite map_to_list_empty in E.
Qed.

Lemma cbr_run w s :
  _get_rub_rate_from_cbr w s
  = (Return (source_b (net w (length (sent s)) cbr_url)), asked cbr_url s).
Proof.
  unfold _get_rub_rate_from_cbr, try_except, mbind, http_get_json, lift, source_b.
  destruct (net w (length (sent s)) cbr_url) as [| |data]; try done.
  by destruct (rub_rates_of data).
Qed.

Lemma reconcile_run base data w s :
  reconcile base data w s
  = match has_rub data with
    | Return true =>
        (apply_patch base data (source_b (net w (length (sent s)) cbr_url)),
         asked cbr_url s)
    | Return false => (Return data, s)
    | Raise e => (Raise e, s)
    end.
Proof.
  unfold reconcile, mbind, lift at 1.
  destruct (has_rub data) as [[]|e]; try done.
  rewrite cbr_run. by destruct (apply_patch _ _ _).
Qed.

Lemma fresh_entry_run base force w s :
  fresh_entry base force w s
  = (Return (if cache_hit w s base force then cache (self s) !! base else None),
     looked s base force).
Proof.
  unfold fresh_entry, cache_hit, looked, mbind, get_self, datetime_now, mret.
  destruct force; simpl; [done|].
  destruct (cache (self s) !! base); [|done].
  destruct (cache_timestamps (self s) !! base); [|done].
  simpl. by destruct (_ <? _).
Qed.

Lemma cache_hit_true w s base force :
  cache_hit w s base force = true <->
  force = false /\
  exists table stamp,
    cache (self s) !! base = Some table /\
    cache_timestamps (self s) !! base = Some stamp /\
    clock w (reads s) - stamp < cache_duration (self s).
Proof.
  unfold cache_hit. split.
  - intros [Hf Hage]%andb_prop. apply negb_true_iff in Hf. split; [done|].
    destruct (cache (self s) !! base) as [table|]; [|done].
    destruct (cache_timestamps (self s) !! base) as [stamp|]; [|done].
    exists table, stamp. by apply Z.ltb_lt in Hage.
  - intros (-> & table & stamp & -> & -> & Hage). by apply Z.ltb_lt.
Qed.

(** A fresh entry: the table comes out of the cache. *)
Lemma get_exchange_rates_hit base force w s :
  cache_hit w s base force = true ->
  exists table,
    cache (self s) !! base = Some table /\
    get_exchange_rates base force w s = (Return table, tick s).
Proof.
  intros Hhit. pose proof Hhit as Hh.
  apply cache_hit_true in Hh as (-> & table & stamp & Hc & Ht & Hage).
  exists table. split; [done|].
  unfold get_exchange_rates, try_except, mbind at 1.
  rewrite fresh_entry_run, Hhit, Hc.
  unfold looked. by rewrite Hc, Ht.
Qed.

(** No fresh entry: Source A is asked, the table is reconciled and stored. *)
Lemma get_exchange_rates_miss base force w s :
  cache_hit w s base force = false ->
  let s1 := looked s base force in
  let url := source_a_url (self s) base in
  get_exchange_rates base force w s
  = match net w (length (sent s)) url with
    | RequestFailed | BodyInvalid => (Return JNull, asked url s1)
    | Parsed data =>
        match reconcile base data w (asked url s1) with
        | (Return data', s2) =>
            (Return data', stored base data' s2 (clock w (reads s2)))
        | (Raise RequestException, s2) | (Raise JSONDecodeError, s2) =>
            (Return JNull, s2)
        | (Raise e, s2) => (Raise e, s2)
        end
    end.
Proof.
  intros Hmiss s1 url.
  assert (self s1 = self s /\ sent s1 = sent s) as [Hself Hsent].
  { unfold s1, looked. by repeat case_match. }
  unfold get_exchange_rates, try_except, mbind at 1.
  rewrite fresh_entry_run, Hmiss. fold s1.
  unfold mbind at 1, get_self. rewrite Hself. fold url.
  unfold mbind at 1, http_get_json. rewrite Hsent.
  destruct (net w (length (sent s)) url) as [| |data]; try done.
  unfold mbind at 1.
  replace (asked url s1) with
    {| self := self s1; reads := reads s1; sent := sent s1 ++ [url] |} by done.
  rewrite Hsent. fold (asked url s1).
  destruct (reconcile base data w _) as [[data'|e] s2]; [done|].
  by destruct e.
Qed.

(** ** What a call does to the converter *)

Lemma self_looked s base force : self (looked s base force) = self s.
Proof. unfold looked. by repeat case_match. Qed.

Lemma sent_looked s base force : sent (looked s base force) = sent s.
Proof. unfold looked. by repeat case_match. Qed.

Lemma self_stored base data s1 s2 now :
  self s1 = self s2 ->
  self (stored base data s1 now) = self (stored base data s2 now).
Proof. unfold stored. simpl. by intros ->. Qed.

(** [get_exchange_rates] leaves the converter as it was or stores one table
    and its stamp under the key it was given. *)
Lemma get_exchange_rates_self base force w s :
  let s' := (get_exchange_rates base force w s).2 in
  self s' = self s \/
  exists data now, self s' = self (stored base data s now).
Proof.
  destruct (cache_hit w s base force) eqn:Hhit.
  - destruct (get_exchange_rates_hit _ _ _ _ Hhit) as (table & _ & ->). by left.
  - rewrite (get_exchange_rates_miss _ _ _ _ Hhit).
    destruct (net w _ _) as [| |data]; simpl;
      [left; apply self_looked | left; apply self_looked |].
    rewrite reconcile_run.
    destruct (has_rub data) as [[]|e]; simpl.
    + destruct (apply_patch _ _ _) as [data'|e]; simpl.
      * right. exists data', (clock w (reads (looked s base force))).
        apply self_stored. simpl. apply self_looked.
      * left. destruct e; simpl; apply self_looked.
    + right. exists data, (clock w (reads (looked s base force))).
      apply self_stored. simpl. apply self_looked.
    + left. destruct e; simpl; apply self_looked.
Qed.

Lemma stateless_mret {A} (a : A) : stateless (num:=num) (mret a).
Proof. done. Qed.

Lemma stateless_lift {A} (o : outcome A) : stateless (num:=num) (lift o).
Proof. done. Qed.

Lemma stateless_bind {A B} (m : M (num:=num) A) (k : A -> M B) :
  stateless m -> (forall a, stateless (k a)) -> stateless (mbind m k).
Proof.
  intros Hm Hk w s. unfold mbind. specialize (Hm w s).
  destruct (m w s) as [[a|e] s']; simpl in *; subst; [apply Hk|done].
Qed.

Lemma after_bind {A B} (m : M (num:=num) A) (k : A -> M B) w s :
  (forall a, stateless (k a)) -> (mbind m k w s).2 = (m w s).2.
Proof.
  intros Hk. unfold mbind. destruct (m w s) as [[a|e] s']; [apply Hk|done].
Qed.

Lemma stateless_no_rates data : stateless (no_rates data).
Proof.
  unfold no_rates. destruct (negb (truth data)); [done|].
  apply stateless_bind; [apply stateless_lift | intros; apply stateless_mret].
Qed.

Local Ltac solve_stateless :=
  repeat first
    [ apply stateless_mret | apply stateless_lift | apply stateless_no_rates
    | apply stateless_bind | progress intros | case_match ].

Lemma convert_after amount from to force w s :
  (convert amount from to force w s).2
  = if String.eqb (upper from) (upper to) then s
    else (get_exchange_rates (upper from)
            (if rub_involved from to then true else force) w s).2.
Proof.
  unfold convert. destruct (String.eqb _ _); [done|].
  apply after_bind. solve_stateless.
Qed.

Lemma get_rate_after from to force w s :
  (get_rate from to force w s).2
  = if String.eqb (upper from) (upper to) then s
    else (get_exchange_rates (upper from)
            (if rub_involved from to then true else force) w s).2.
Proof.
  unfold get_rate. destruct (String.eqb _ _); [done|].
  apply after_bind. solve_stateless.
Qed.

Lemma get_available_currencies_after base w s :
  (get_available_currencies base w s).2
  = (get_exchange_rates (upper base) false w s).2.
Proof. unfold get_available_currencies. apply after_bind. solve_stateless. Qed.

(** ** The cache in front of Source A *)

(** C4: when the cache holds an entry for the base currency whose age is
    strictly less than five minutes, [get_exchange_rates] without
    [force_update] returns that very table; the converter is left as it
    was and no request is sent, neither to Source A nor to Source B. *)
Theorem fresh_entry_is_returned w s base table stamp :
  cache_duration (self s) = timedelta_minutes 5 ->
  cache (self s) !! base = Some table ->
  cache_timestamps (self s) !! base = Some stamp ->
  clock w (reads s) - stamp < timedelta_minutes 5 ->
  exists s',
    get_exchange_rates base false w s = (Return table, s') /\
    self s' = self s /\
    sent s' = sent s.
Proof.
  intros Hd Hc Ht Hage.
  assert (cache_hit w s base false = true) as Hhit.
  { apply cache_hit_true. split; [done|]. exists table, stamp. by rewrite Hd. }
  destruct (get_exchange_rates_hit _ _ _ _ Hhit) as (table' & Hc' & ->).
  exists (tick s). by simplify_eq.
Qed.

(** C7: when Source A fails, by a request error or by a body that does not
    parse, [get_exchange_rates] returns [None] at once: the cache and the
    stamps are what they were, and the one request to Source A is the only
    one sent. *)
Theorem source_a_failure_keeps_cache w s base force :
  cache_hit w s base force = false ->
  net w (length (sent s)) (source_a_url (self s) base) = RequestFailed \/
  net w (length (sent s)) (source_a_url (self s) base) = BodyInvalid ->
  exists s',
    get_exchange_rates base force w s = (Return JNull, s') /\
    cache (self s') = cache (self s) /\
    cache_timestamps (self s') = cache_timestamps (self s) /\
    sent s' = (sent s ++ [source_a_url (self s) base])%list.
Proof.
  intros Hmiss Hnet.
  exists (asked (source_a_url (self s) base) (looked s base force)).
  rewrite (get_exchange_rates_miss _ _ _ _ Hmiss). simpl.
  rewrite self_looked, sent_looked.
  by destruct Hnet as [-> | ->].
Qed.

(** C2 (as amended): a body of Source A that parses but holds no [rates]
    is not reported as a failure by [get_exchange_rates]: the parsed value
    is returned as it is and stored in the cache under the base currency
    with a stamp, and Source B is not asked. *)
Theorem table_without_rates_is_cached w s base force data :
  cache_hit w s base force = false ->
  net w (length (sent s)) (source_a_url (self s) base) = Parsed data ->
  truth data = false \/ contains "rates" data = Return false ->
  exists s',
    get_exchange_rates base force w s = (Return data, s') /\
    cache (self s') !! base = Some data /\
    is_Some (cache_timestamps (self s') !! base) /\
    sent s' = (sent s ++ [source_a_url (self s) base])%list.
Proof.
  intros Hmiss Hnet Hno.
  assert (has_rub data = Return false) as Hrub.
  { unfold has_rub. destruct Hno as [-> | Hc]; [done|].
    rewrite Hc. simpl. by destruct (truth data). }
  rewrite (get_exchange_rates_miss _ _ _ _ Hmiss), Hnet, reconcile_run, Hrub.
  eexists. split; [done|]. simpl.
  rewrite !lookup_insert_eq, sent_looked. eauto.
Qed.

(** What the three queries make of such a table: a failure. *)
Lemma no_rates_true data w s :
  truth data = false \/ contains "rates" data = Return false ->
  no_rates data w s = (Return true, s).
Proof.
  unfold no_rates. intros [-> | Hc]; [done|].
  destruct (truth data); [|done]. simpl.
  unfold mbind, lift. by rewrite Hc.
Qed.

(** ** Source B *)

(** Source B never raises. *)
Lemma cbr_failure_none r : cbr_failure r -> source_b r = None.
Proof.
  intros [| |data Hc|data e He]; simpl; try done.
  - unfold rub_rates_of. by rewrite Hc.
  - by rewrite He.
Qed.

(** C5: for the base currency USD or EUR (in any letter case), when the
    table of Source A has a RUB rate and Source B returns a patch with an
    entry for the base currency, the table that [get_exchange_rates]
    returns and caches is the table of Source A with the RUB rate replaced
    by the value of Source B; every other rate is the one of Source A. *)
Theorem rub_rate_is_patched w s base force code d r old patch v :
  cache_hit w s base force = false ->
  code = "USD" \/ code = "EUR" ->
  upper base = code ->
  net w (length (sent s)) (source_a_url (self s) base) = Parsed (JObj d) ->
  d !! "rates" = Some (JObj r) ->
  r !! "RUB" = Some old ->
  source_b (net w (S (length (sent s))) cbr_url) = Some patch ->
  patch !! code = Some v ->
  exists s' r',
    get_exchange_rates base force w s
    = (Return (JObj (<["rates" := JObj r']> d)), s') /\
    cache (self s') !! base = Some (JObj (<["rates" := JObj r']> d)) /\
    r' !! "RUB" = Some (JNum v) /\
    forall code' : string, code' <> "RUB" -> r' !! code' = r !! code'.
Proof.
  intros Hmiss Hcode Hbase Hnet Hd Hr Hb Hv.
  assert (has_rub (JObj d) = Return true) as Hrub.
  { unfold has_rub.
    assert (truth (JObj d) = true) as ->.
    { destruct (truth (JObj d)) eqn:E; [done|].
      apply truth_obj in E. subst d. by rewrite lookup_empty in Hd. }
    simpl. rewrite Hd. simpl. by rewrite Hr. }
  assert (apply_patch base (JObj d) (Some patch)
          = Return (JObj (<["rates" := JObj (<["RUB" := JNum v]> r)]> d)))
    as Hpatch.
  { unfold apply_patch.
    assert (truth_patch (Some patch) = true) as ->.
    { destruct (truth_patch (Some patch)) eqn:E; [done|].
      apply truth_patch_false in E as [|[= ->]]; [done|].
      by rewrite lookup_empty in Hv. }
    rewrite Hbase. unfold set_rub. simpl. rewrite Hd. simpl.
    destruct Hcode as [-> | ->]; simpl; by rewrite Hv. }
  rewrite (get_exchange_rates_miss _ _ _ _ Hmiss), Hnet, reconcile_run, Hrub.
  simpl. rewrite sent_looked, length_app, Nat.add_1_r. simpl.
  rewrite Hb, Hpatch.
  eexists _, (<["RUB" := JNum v]> r). split; [done|]. simpl.
  rewrite !lookup_insert_eq. repeat split.
  intros c Hc. by rewrite lookup_insert_ne.
Qed.

(** C6: when Source A succeeds with a table of rates and Source B fails
    (request error, body that does not parse, missing or unusable fields),
    [_get_rub_rate_from_cbr] returns [None] without raising, and
    [get_exchange_rates] returns the table of Source A as it came and
    caches it under the base currency. *)
Theorem source_b_failure_is_absorbed w s base force d r :
  cache_hit w s base force = false ->
  net w (length (sent s)) (source_a_url (self s) base) = Parsed (JObj d) ->
  d !! "rates" = Some (JObj r) ->
  cbr_failure (net w (S (length (sent s))) cbr_url) ->
  (forall s2, length (sent s2) = S (length (sent s)) ->
     (_get_rub_rate_from_cbr w s2).1 = Return None) /\
  exists s',
    get_exchange_rates base force w s = (Return (JObj d), s') /\
    cache (self s') !! base = Some (JObj d) /\
    is_Some (cache_timestamps (self s') !! base).
Proof.
  intros Hmiss Hnet Hd Hfail. apply cbr_failure_none in Hfail. split.
  { intros s2 Hlen. by rewrite cbr_run, Hlen, Hfail. }
  rewrite (get_exchange_rates_miss _ _ _ _ Hmiss), Hnet, reconcile_run.
  simpl. rewrite sent_looked, length_app, Nat.add_1_r. simpl. rewrite Hfail.
  assert (exists b, has_rub (JObj d) = Return b) as [b ->].
  { unfold has_rub. destruct (truth (JObj d)); [|by eexists].
    simpl. rewrite Hd. simpl. by eexists. }
  destruct b; simpl; eexists; (split; [done|]); simpl;
    rewrite !lookup_insert_eq; eauto.
Qed.

(** ** The queries *)

(** C8: when the two currency codes are equal up to letter case, known or
    not, [convert] returns the amount it was given and [get_rate] returns
    [1.0]; the state is untouched: no request, no reading of the clock, no
    change of the cache. *)
Theorem same_currency_short_circuit (amount : num) from to force w s :
  upper from = upper to ->
  convert amount from to force w s = (Return (JNum amount), s) /\
  get_rate from to force w s = (Return (JNum num_one), s).
Proof.
  intros Heq. unfold convert, get_rate.
  by rewrite Heq, String.eqb_refl.
Qed.

Lemma get_exchange_rates_sent base force w s :
  cache_hit w s base force = false ->
  sent (get_exchange_rates base force w s).2
  = (sent s ++ source_a_url (self s) base ::
       if asks_source_b (net w (length (sent s)) (source_a_url (self s) base))
       then [cbr_url] else [])%list.
Proof.
  intros Hmiss. rewrite (get_exchange_rates_miss _ _ _ _ Hmiss).
  destruct (net w _ _) as [| |data]; simpl; rewrite ?sent_looked; try done.
  rewrite reconcile_run.
  destruct (has_rub data) as [[]|e]; simpl.
  - destruct (apply_patch _ _ _) as [data'|e]; simpl;
      [|destruct e; simpl]; by rewrite sent_looked, <- app_assoc.
  - by rewrite sent_looked.
  - destruct e; simpl; by rewrite sent_looked.
Qed.

(** C9 (as amended): when RUB is one side of a conversion of two different
    currencies, [convert] and [get_rate] ask Source A for the table of the
    [from] currency whatever the cache holds and whatever flag the caller
    gave; Source B is asked next exactly when the answer of Source A is a
    table with a RUB rate. *)
Theorem rub_forces_fetch (amount : num) from to force w s :
  upper from <> upper to ->
  rub_involved from to = true ->
  sent (convert amount from to force w s).2
  = (sent s ++ source_a_url (self s) (upper from) ::
       if asks_source_b
            (net w (length (sent s)) (source_a_url (self s) (upper from)))
       then [cbr_url] else [])%list /\
  sent (get_rate from to force w s).2
  = (sent s ++ source_a_url (self s) (upper from) ::
       if asks_source_b
            (net w (length (sent s)) (source_a_url (self s) (upper from)))
       then [cbr_url] else [])%list.
Proof.
  intros Hne Hrub. apply String.eqb_neq in Hne.
  rewrite convert_after, get_rate_after, Hne, Hrub.
  by rewrite get_exchange_rates_sent.
Qed.

(** ** Invariants of the cache *)

Lemma after_self c w s :
  self (after c w s) = self s \/
  (exists k data now,
     (is_query c = true -> upper k = k) /\
     self (after c w s) = self (stored k data s now)) \/
  (cache (self (after c w s)) = ∅ /\
   cache_timestamps (self (after c w s)) = ∅).
Proof.
  destruct c as [b f| |a f t u|b|f t u]; simpl.
  - destruct (get_exchange_rates_self b f w s) as [?|(data & now & ?)];
      [by left|right; left]. by exists b, data, now.
  - by right; right.
  - rewrite convert_after. destruct (String.eqb _ _); [by left|].
    destruct (get_exchange_rates_self (upper f)
                (if rub_involved f t then true else u) w s)
      as [?|(data & now & ?)]; [by left|right; left].
    exists (upper f), data, now. split; [intros _; apply upper_idem|done].
  - rewrite get_available_currencies_after.
    destruct (get_exchange_rates_self (upper b) false w s)
      as [?|(data & now & ?)]; [by left|right; left].
    exists (upper b), data, now. split; [intros _; apply upper_idem|done].
  - rewrite get_rate_after. destruct (String.eqb _ _); [by left|].
    destruct (get_exchange_rates_self (upper f)
                (if rub_involved f t then true else u) w s)
      as [?|(data & now & ?)]; [by left|right; left].
    exists (upper f), data, now. split; [intros _; apply upper_idem|done].
Qed.

Lemma run_cons c cs w s : run (c :: cs) w s = run cs w (after c w s).
Proof. done. Qed.

(** An invariant of every call is an invariant of every sequence. *)
Lemma run_invariant (P : call num -> Prop) (I : Sys num -> Prop) w :
  (forall c s, P c -> I s -> I (after c w s)) ->
  forall cs s, Forall P cs -> I s -> I (run cs w s).
Proof.
  intros Hstep cs. induction cs as [|c cs IH]; intros s Hcs Hs; [done|].
  inversion_clear Hcs. rewrite run_cons. apply IH; [done|]. by apply Hstep.
Qed.

Lemma after_in_step c w s : in_step s -> in_step (after c w s).
Proof.
  unfold in_step. intros Hs.
  destruct (after_self c w s) as [->|[(k & data & now & _ & ->)|[-> ->]]].
  - done.
  - simpl. by rewrite !dom_insert_L, Hs.
  - by rewrite !dom_empty_L.
Qed.

(** C10: after every sequence of calls on a new converter, whether they
    returned or raised, the cache and the stamps have the same keys. *)
Theorem cache_and_stamps_share_keys (url : string) w (cs : list (call num)) :
  dom (cache (self (run cs w (boot url))))
  = dom (cache_timestamps (self (run cs w (boot url)))).
Proof.
  apply (run_invariant (fun _ : call num => True) in_step).
  - intros c s _. apply after_in_step.
  - by apply Forall_true.
  - done.
Qed.

Lemma after_upper_keys c w s :
  is_query c = true -> upper_keys s -> upper_keys (after c w s).
Proof.
  unfold upper_keys. intros Hq Hs k.
  destruct (after_self c w s) as [->|[(k' & data & now & Hk & ->)|[-> _]]].
  - apply Hs.
  - simpl. destruct (decide (k' = k)) as [<-|Hne]; [intros _; by apply Hk|].
    rewrite lookup_insert_ne by done. apply Hs.
  - rewrite lookup_empty. by intros [? ?].
Qed.

Lemma same_call_query c (c' : call num) : same_call c c' -> is_query c = true.
Proof. by intros []. Qed.

Lemma same_call_after c c' w s : same_call c c' -> after c w s = after c' w s.
Proof.
  intros [|a f t f' t' u Hf Ht|b b' Hb|f t f' t' u Hf Ht]; simpl.
  - done.
  - unfold convert, rub_involved. by rewrite Hf, Ht.
  - unfold get_available_currencies. by rewrite Hb.
  - unfold get_rate, rub_involved. by rewrite Hf, Ht.
Qed.

Lemma same_call_run cs cs' w s :
  Forall2 same_call cs cs' -> run cs w s = run cs' w s.
Proof.
  intros Hcs. revert s.
  induction Hcs as [|c c' cs cs' Hc _ IH]; intros s; [done|].
  by rewrite !run_cons, (same_call_after _ _ _ _ Hc), IH.
Qed.

(** C3 (as amended): [convert], [get_rate] and [get_available_currencies]
    put their currency codes in upper case before use.  Two sequences of
    such calls (and of [clear_cache]) on a new converter that differ in the
    letter case of the codes only lead to the same state, and in that state
    every key of the cache is in upper case, so that no two entries stand
    for the same code. *)
Theorem queries_key_the_cache_in_upper_case
    (url : string) w (cs cs' : list (call num)) :
  Forall2 same_call cs cs' ->
  run cs w (boot url) = run cs' w (boot url) /\
  (forall k, is_Some (cache (self (run cs w (boot url))) !! k) -> upper k = k) /\
  (forall k1 k2,
     is_Some (cache (self (run cs w (boot url))) !! k1) ->
     is_Some (cache (self (run cs w (boot url))) !! k2) ->
     upper k1 = upper k2 -> k1 = k2).
Proof.
  intros Hcs.
  assert (upper_keys (run cs w (boot url))) as Hkeys.
  { apply (run_invariant (fun c : call num => is_query c = true) upper_keys).
    - intros c s. apply after_upper_keys.
    - eapply Forall2_Forall_l; [done|].
      apply Forall_true. intros c c'. apply same_call_query.
    - intros k. simpl. rewrite lookup_empty. by intros [? ?]. }
  split; [by apply same_call_run|]. split; [done|].
  intros k1 k2 H1 H2 Heq.
  by rewrite <- (Hkeys k1 H1), <- (Hkeys k2 H2).
Qed.

(** ** The list of currencies *)

Lemma elem_of_keys (m : gmap string (json num)) (k : string) :
  k ∈ (map_to_list m).*1 <-> is_Some (m !! k).
Proof.
  rewrite list_elem_of_fmap. split.
  - intros ([k' x] & -> & Hin). apply elem_of_map_to_list in Hin. by exists x.
  - intros [x Hx]. exists (k, x). split; [done|]. by apply elem_of_map_to_list.
Qed.

Lemma not_elem_of_keys_none (m : gmap string (json num)) (k : string) :
  k ∉ (map_to_list m).*1 <-> m !! k = None.
Proof. by rewrite elem_of_keys, eq_None_not_Some. Qed.

(** C1 (as amended): when the fetch for the base currency gives a table
    with a dictionary of rates, [get_available_currencies] returns, in
    ascending order, the keys of the rates and the upper-cased base
    currency added once more: the base currency is there twice when it is
    a key of the rates already, and the list is free of duplicates exactly
    when it is not. *)
Theorem available_currencies_sorted base w s d r s' :
  get_exchange_rates (upper base) false w s = (Return (JObj d), s') ->
  d !! "rates" = Some (JObj r) ->
  exists l,
    get_available_currencies base w s = (Return l, s') /\
    Sorted String.le l /\
    l ≡ₚ ((map_to_list r).*1 ++ [upper base])%list /\
    (forall code : string,
       code ∈ l <-> is_Some (r !! code) \/ code = upper base) /\
    (NoDup l <-> r !! upper base = None).
Proof.
  intros Hget Hd.
  exists (py_sorted ((map_to_list r).*1 ++ [upper base])).
  split; [|split; [apply py_sorted_sorted|split; [apply py_sorted_perm|]]].
  - unfold get_available_currencies, mbind at 1. rewrite Hget.
    unfold mbind at 1, no_rates.
    assert (truth (JObj d) = true) as ->.
    { destruct (truth (JObj d)) eqn:E; [done|].
      apply truth_obj in E. subst d. by rewrite lookup_empty in Hd. }
    unfold mbind, lift, mret. simpl. by rewrite Hd.
  - split.
    + intros code. rewrite py_sorted_perm, elem_of_app, elem_of_keys.
      by rewrite list_elem_of_singleton.
    + rewrite py_sorted_perm, NoDup_app.
      rewrite <- not_elem_of_keys_none. split.
      * intros (_ & Hnot & _) Hin. apply (Hnot _ Hin). by left.
      * intros Hnot. split; [apply NoDup_fst_map_to_list|].
        split; [|apply NoDup_singleton].
        intros k Hk Hk'. apply list_elem_of_singleton in Hk'. by subst.
Qed.

(** What the three queries make of a table without rates: a failure. *)
Lemma queries_fail_without_rates (amount : num) from to base force w s data s' :
  truth data = false \/ contains "rates" data = Return false ->
  (upper from <> upper to ->
   get_exchange_rates (upper from)
     (if rub_involved from to then true else force) w s = (Return data, s') ->
   convert amount from to force w s = (Return JNull, s') /\
   get_rate from to force w s = (Return JNull, s')) /\
  (get_exchange_rates (upper base) false w s = (Return data, s') ->
   get_available_currencies base w s = (Return [], s')).
Proof.
  intros Hno. split.
  - intros Hne%String.eqb_neq Hget. unfold convert, get_rate.
    rewrite Hne. unfold mbind. rewrite Hget.
    by rewrite (no_rates_true _ _ _ Hno).
  - intros Hget. unfold get_available_currencies, mbind. rewrite Hget.
    by rewrite (no_rates_true _ _ _ Hno).
Qed.

End Facts.

(** * Further properties of the converter *)

Section Further.

Context {num : Type} `{PyNumber num}.

Implicit Types (w : World num) (s : Sys num) (data table : json num).
Implicit Types (c : call num) (cs : list (call num)).

(** ** Exceptions *)

Lemma has_rub_raises data e : has_rub data = Raise e -> e = TypeError.
Proof.
  unfold has_rub. destruct (truth data); [|done].
  destruct data as [| | | |l|m]; simpl; try congruence.
  - destruct (is_infix _ _); simpl; congruence.
  - destruct (existsb _ _); simpl; congruence.
  - destruct (m !! "rates") as [rates|]; simpl; [|done].
    destruct rates; simpl; congruence.
Qed.

Lemma has_rub_true data :
  has_rub data = Return true ->
  exists d rates, data = JObj d /\ d !! "rates" = Some rates /\
                  contains "RUB" rates = Return true.
Proof.
  unfold has_rub. destruct (truth data); [|done].
  destruct data as [| | | |l|m]; simpl; try congruence.
  - destruct (is_infix _ _); simpl; congruence.
  - destruct (existsb _ _); simpl; congruence.
  - destruct (m !! "rates") as [rates|] eqn:E; simpl; [|done].
    intros Hc. by exists m, rates.
Qed.

Lemma set_rub_raises data v e :
  has_rub data = Return true -> set_rub data v = Raise e -> e = TypeError.
Proof.
  intros (d & rates & -> & Hd & _)%has_rub_true. unfold set_rub. simpl.
  rewrite Hd. simpl. destruct rates; simpl; congruence.
Qed.

Lemma apply_patch_raises base data patch e :
  has_rub data = Return true ->
  apply_patch base data patch = Raise e -> e = TypeError.
Proof.
  intros Hrub. unfold apply_patch.
  repeat case_match; try done; by apply set_rub_raises.
Qed.

Lemma reconcile_raises base data w s e s' :
  reconcile base data w s = (Raise e, s') -> e = TypeError.
Proof.
  rewrite reconcile_run. destruct (has_rub data) as [[]|e'] eqn:Hrub.
  - intros [= Hp _]. by apply apply_patch_raises in Hp.
  - done.
  - intros [= -> _]. by apply has_rub_raises in Hrub.
Qed.

Lemma self_reconcile base data w s : self (reconcile base data w s).2 = self s.
Proof. rewrite reconcile_run. by repeat case_match. Qed.

(** The state in which [get_exchange_rates] stores what Source A gave. *)
Lemma get_exchange_rates_parsed base force w s data :
  cache_hit w s base force = false ->
  net w (length (sent s)) (source_a_url (self s) base) = Parsed data ->
  exists o s2,
    reconcile base data w (asked (source_a_url (self s) base)
                             (looked s base force)) = (o, s2) /\
    self s2 = self s /\
    get_exchange_rates base force w s
    = match o with
      | Return data' => (Return data', stored base data' s2 (clock w (reads s2)))
      | Raise e => (Raise e, s2)
      end /\
    (forall e, o = Raise e -> e = TypeError).
Proof.
  intros Hmiss Hnet.
  rewrite (get_exchange_rates_miss _ _ _ _ Hmiss), Hnet.
  destruct (reconcile base data w _) as [o s2] eqn:Hrec.
  exists o, s2. split; [done|]. split.
  { change s2 with (o, s2).2. rewrite <- Hrec, self_reconcile.
    simpl. apply self_looked. }
  destruct o as [data'|e]; [by split|].
  apply reconcile_raises in Hrec as ->. by split; [|intros ? [= <-]].
Qed.


Lemma table_shaped_reconcile base data w s :
  table_shaped data -> exists data', (reconcile base data w s).1 = Return data'.
Proof.
  intros (d & -> & Hrates). rewrite reconcile_run.
  unfold has_rub. destruct (truth (JObj d)); [|by eexists].
  simpl. destruct Hrates as [Hd|[r Hd]]; rewrite Hd; simpl; [by eexists|].
  destruct (r !! "RUB"); simpl; [|by eexists].
  unfold apply_patch, set_rub. simpl. rewrite Hd. simpl.
  repeat case_match; by eexists.
Qed.

(** X7: [get_exchange_rates] returns, a table or [None], whenever what
    Source A answers has the shape of a table: a dictionary whose
    ["rates"], when there, is a dictionary. *)
Theorem get_exchange_rates_returns base force w s :
  (forall data,
     net w (length (sent s)) (source_a_url (self s) base) = Parsed data ->
     table_shaped data) ->
  exists table s', get_exchange_rates base force w s = (Return table, s').
Proof.
  intros Hshape. destruct (cache_hit w s base force) eqn:Hhit.
  { destruct (get_exchange_rates_hit _ _ _ _ Hhit) as (t & _ & Heq). eauto. }
  destruct (net w (length (sent s)) (source_a_url (self s) base))
    as [| |data] eqn:Hnet.
  - rewrite (get_exchange_rates_miss _ _ _ _ Hhit), Hnet. eauto.
  - rewrite (get_exchange_rates_miss _ _ _ _ Hhit), Hnet. eauto.
  - destruct (get_exchange_rates_parsed _ _ _ _ _ Hhit Hnet)
      as (o & s2 & Hrec & _ & Heq & _).
    destruct (table_shaped_reconcile base data w
                (asked (source_a_url (self s) base) (looked s base force))
                (Hshape data eq_refl)) as [data' Hret].
    rewrite Hrec in Hret. simpl in Hret. subst o. rewrite Heq. eauto.
Qed.

Lemma get_exchange_rates_stores base force w s table s' :
  get_exchange_rates base force w s = (Return table, s') ->
  table <> JNull ->
  cache (self s') !! base = Some table /\
  is_Some (cache_timestamps (self s') !! base).
Proof.
  intros Hget Hnot. destruct (cache_hit w s base force) eqn:Hhit.
  { pose proof Hhit as (_ & t & stamp & Hc & Ht & _)%cache_hit_true.
    destruct (get_exchange_rates_hit _ _ _ _ Hhit) as (t' & Hc' & Heq).
    rewrite Heq in Hget. injection Hget as <- <-. simpl.
    rewrite Hc', Ht. eauto. }
  destruct (net w (length (sent s)) (source_a_url (self s) base))
    as [| |data] eqn:Hnet.
  - rewrite (get_exchange_rates_miss _ _ _ _ Hhit), Hnet in Hget. congruence.
  - rewrite (get_exchange_rates_miss _ _ _ _ Hhit), Hnet in Hget. congruence.
  - destruct (get_exchange_rates_parsed _ _ _ _ _ Hhit Hnet)
      as (o & s2 & _ & _ & Heq & _).
    rewrite Heq in Hget. destruct o as [data'|e']; [|done].
    injection Hget as <- <-. simpl. rewrite !lookup_insert_eq. eauto.
Qed.

(** X5: a table that [get_exchange_rates] returns, other than [None], is
    what the cache holds for the base currency afterwards, with a stamp;
    while that stamp is younger than the window, the next call without
    [force_update] returns the same table and sends no request. *)
Theorem returned_table_is_served_again base force w s table s' :
  get_exchange_rates base force w s = (Return table, s') ->
  table <> JNull ->
  cache (self s') !! base = Some table /\
  exists stamp,
    cache_timestamps (self s') !! base = Some stamp /\
    (clock w (reads s') - stamp < cache_duration (self s') ->
     get_exchange_rates base false w s' = (Return table, tick s')).
Proof.
  intros Hget Hnot.
  destruct (get_exchange_rates_stores _ _ _ _ _ _ Hget Hnot)
    as [Hc [stamp Ht]].
  split; [done|]. exists stamp. split; [done|]. intros Hage.
  assert (cache_hit w s' base false = true) as Hhit.
  { apply cache_hit_true. split; [done|]. by exists table, stamp. }
  destruct (get_exchange_rates_hit _ _ _ _ Hhit) as (t & Hc' & ->).
  by simplify_eq.
Qed.

(** ** What a call keeps *)

Lemma after_config c w s :
  api_url (self (after c w s)) = api_url (self s) /\
  cache_duration (self (after c w s)) = cache_duration (self s).
Proof.
  assert (forall base force,
            api_url (self (get_exchange_rates base force w s).2)
            = api_url (self s) /\
            cache_duration (self (get_exchange_rates base force w s).2)
            = cache_duration (self s)) as Hget.
  { intros base force.
    destruct (get_exchange_rates_self base force w s)
      as [->|(data & now & ->)]; done. }
  destruct c as [b f| |a f t u|b|f t u]; simpl.
  - apply Hget.
  - done.
  - rewrite convert_after. destruct (String.eqb _ _); [done|apply Hget].
  - rewrite get_available_currencies_after. apply Hget.
  - rewrite get_rate_after. destruct (String.eqb _ _); [done|apply Hget].
Qed.

Lemma run_config (url : string) w cs :
  api_url (self (run cs w (boot url))) = url /\
  cache_duration (self (run cs w (boot url))) = timedelta_minutes 5.
Proof.
  apply (run_invariant (fun _ : call num => True)
           (fun s => api_url (self s) = url /\
                     cache_duration (self s) = timedelta_minutes 5)).
  - intros c s _ [Hu Hd]. destruct (after_config c w s) as [-> ->]. done.
  - by apply Forall_true.
  - done.
Qed.

(** X2: no sequence of calls changes the configuration of a converter:
    the address of Source A is the one it was built with and the window of
    freshness is five minutes. *)
Theorem configuration_is_kept (url : string) w cs :
  api_url (self (run cs w (boot url))) = url /\
  cache_duration (self (run cs w (boot url))) = timedelta_minutes 5.
Proof.
  induction cs as [|c cs IH] using rev_ind; [done|].
  unfold run in *. rewrite foldl_app. simpl.
  destruct (after_config c w (foldl (fun s c => after c w s) (boot url) cs))
    as [-> ->].
  exact IH.
Qed.

(** X1: after any sequence of calls, [clear_cache] puts the converter back
    in the state of a new one, sends no request and does not read the
    clock. *)
Theorem clear_cache_resets (url : string) w cs :
  clear_cache w (run cs w (boot url))
  = (Return tt,
     {| self := init url;
        reads := reads (run cs w (boot url));
        sent := sent (run cs w (boot url)) |}).
Proof.
  destruct (run_config url w cs) as [Hu Hd].
  unfold clear_cache, mbind, get_self, put_self, init.
  by rewrite Hu, Hd.
Qed.

(** X3: [get_exchange_rates] for one base currency leaves the entries and
    the stamps of all other keys as they were, and it never removes the
    entry of its own key. *)
Theorem get_exchange_rates_frame base force w s :
  (forall k, k <> base ->
     cache (self (get_exchange_rates base force w s).2) !! k
     = cache (self s) !! k /\
     cache_timestamps (self (get_exchange_rates base force w s).2) !! k
     = cache_timestamps (self s) !! k) /\
  (is_Some (cache (self s) !! base) ->
   is_Some (cache (self (get_exchange_rates base force w s).2) !! base)).
Proof.
  destruct (get_exchange_rates_self base force w s)
    as [->|(data & now & ->)]; simpl.
  - done.
  - split.
    + intros k Hk. by rewrite !lookup_insert_ne.
    + intros _. rewrite lookup_insert_eq. eauto.
Qed.

Lemma after_keeps_keys c w s (k : string) :
  c <> Clear_cache ->
  is_Some (cache (self s) !! k) ->
  is_Some (cache (self (after c w s)) !! k).
Proof.
  intros Hc Hk.
  assert (forall base force,
            is_Some (cache (self (get_exchange_rates base force w s).2) !! k))
    as Hget.
  { intros base force.
    destruct (get_exchange_rates_self base force w s)
      as [->|(data & now & ->)]; [done|]. simpl.
    destruct (decide (base = k)) as [->|Hne].
    - rewrite lookup_insert_eq. eauto.
    - by rewrite lookup_insert_ne. }
  destruct c as [b f| |a f t u|b|f t u]; simpl.
  - apply Hget.
  - done.
  - rewrite convert_after. destruct (String.eqb _ _); [done|apply Hget].
  - rewrite get_available_currencies_after. apply Hget.
  - rewrite get_rate_after. destruct (String.eqb _ _); [done|apply Hget].
Qed.

(** X4: the cache has no eviction: through a sequence of calls without
    [clear_cache], a key that is in the cache stays in the cache. *)
Theorem no_eviction w cs s (k : string) :
  Forall (fun c => c <> Clear_cache) cs ->
  is_Some (cache (self s) !! k) ->
  is_Some (cache (self (run cs w s)) !! k).
Proof.
  intros Hcs. revert s.
  induction Hcs as [|c cs Hc _ IH]; intros s Hk; [done|].
  rewrite run_cons. apply IH. by apply after_keeps_keys.
Qed.

(** ** Requests and clock readings *)

Lemma reads_looked s base force :
  (reads s <= reads (looked s base force) <= reads s + 1)%nat.
Proof. unfold looked. repeat case_match; simpl; lia. Qed.


Lemma get_exchange_rates_log base force w s :
  exists new,
    sent (get_exchange_rates base force w s).2 = (sent s ++ new)%list /\
    requests_of_a_call (source_a_url (self s) base) new /\
    (reads s <= reads (get_exchange_rates base force w s).2 <= reads s + 2)%nat.
Proof.
  unfold requests_of_a_call.
  destruct (cache_hit w s base force) eqn:Hhit.
  { destruct (get_exchange_rates_hit _ _ _ _ Hhit) as (t & _ & ->).
    exists []. simpl. rewrite app_nil_r. repeat split; [by left|lia|lia]. }
  pose proof (reads_looked s base force) as Hreads.
  rewrite (get_exchange_rates_miss _ _ _ _ Hhit).
  destruct (net w _ _) as [| |data]; simpl.
  - eexists [_]. rewrite sent_looked. repeat split; [by right; left|lia..].
  - eexists [_]. rewrite sent_looked. repeat split; [by right; left|lia..].
  - rewrite reconcile_run.
    destruct (has_rub data) as [[]|e]; simpl.
    + eexists [_; _].
      destruct (apply_patch _ _ _) as [data'|e]; simpl;
        [|destruct e; simpl]; rewrite sent_looked, <- app_assoc;
        (repeat split; [by right; right|lia..]).
    + eexists [_]. rewrite sent_looked. repeat split; [by right; left|lia..].
    + eexists [_]. destruct e; simpl; rewrite sent_looked;
        (repeat split; [by right; left|lia..]).
Qed.

(** X8: no call retries: whether it returns or raises, a call sends at most
    one request to Source A, followed by at most one request to Source B,
    and it reads the clock at most twice. *)
Theorem a_call_asks_each_source_at_most_once c w s :
  exists (base : string) new,
    sent (after c w s) = (sent s ++ new)%list /\
    requests_of_a_call (source_a_url (self s) base) new /\
    (reads s <= reads (after c w s) <= reads s + 2)%nat.
Proof.
  assert (exists (base : string) new,
            sent s = (sent s ++ new)%list /\
            requests_of_a_call (source_a_url (self s) base) new /\
            (reads s <= reads s <= reads s + 2)%nat) as Hnone.
  { exists "", []. rewrite app_nil_r. repeat split; [by left|lia..]. }
  destruct c as [b f| |a f t u|b|f t u]; simpl.
  - exists b. apply get_exchange_rates_log.
  - done.
  - rewrite convert_after. destruct (String.eqb _ _); [done|].
    exists (upper f). apply get_exchange_rates_log.
  - rewrite get_available_currencies_after.
    exists (upper b). apply get_exchange_rates_log.
  - rewrite get_rate_after. destruct (String.eqb _ _); [done|].
    exists (upper f). apply get_exchange_rates_log.
Qed.

(** ** Stale entries and refreshes *)


(** X10: a refresh that fails costs nothing: when a forced call finds
    Source A failing, the entry that was there is still returned by the
    next call without [force_update], as long as it is fresh. *)
Theorem failed_refresh_keeps_entry base w s table stamp :
  cache (self s) !! base = Some table ->
  cache_timestamps (self s) !! base = Some stamp ->
  net w (length (sent s)) (source_a_url (self s) base) = RequestFailed \/
  net w (length (sent s)) (source_a_url (self s) base) = BodyInvalid ->
  clock w (reads s) - stamp < cache_duration (self s) ->
  exists s1,
    get_exchange_rates base true w s = (Return JNull, s1) /\
    get_exchange_rates base false w s1 = (Return table, tick s1).
Proof.
  intros Hc Ht Hnet Hage.
  exists (asked (source_a_url (self s) base) s). split.
  - rewrite get_exchange_rates_miss by done. simpl.
    by destruct Hnet as [-> | ->].
  - assert (cache_hit w (asked (source_a_url (self s) base) s) base false
            = true) as Hhit.
    { apply cache_hit_true. split; [done|]. by exists table, stamp. }
    destruct (get_exchange_rates_hit _ _ _ _ Hhit) as (t & Hc' & ->).
    simpl in Hc'. by simplify_eq.
Qed.

(** ** Where the patch of Source B does not apply *)

Lemma apply_patch_same base data patch :
  (upper base <> "USD" /\ upper base <> "EUR") \/
  (forall p, patch = Some p -> p !! upper base = None) ->
  apply_patch base data patch = Return data.
Proof.
  intros Hwhy. unfold apply_patch.
  destruct (truth_patch patch); [|done].
  destruct patch as [p|]; [|done].
  destruct (String.eqb (upper base) "USD") eqn:Husd.
  - apply String.eqb_eq in Husd. destruct Hwhy as [[? _]|Hp]; [done|].
    specialize (Hp p eq_refl). rewrite Husd in *. by rewrite Hp.
  - destruct (String.eqb (upper base) "EUR") eqn:Heur;
      [|by destruct (p !! "USD")].
    apply String.eqb_eq in Heur. destruct Hwhy as [[_ ?]|Hp]; [done|].
    specialize (Hp p eq_refl). rewrite Heur in *. rewrite Hp.
    by destruct (p !! "USD").
Qed.

Lemma unpatched_fetch base force w s data (b : bool) :
  cache_hit w s base force = false ->
  net w (length (sent s)) (source_a_url (self s) base) = Parsed data ->
  has_rub data = Return b ->
  (b = true ->
   apply_patch base data (source_b (net w (S (length (sent s))) cbr_url))
   = Return data) ->
  exists s',
    get_exchange_rates base force w s = (Return data, s') /\
    cache (self s') !! base = Some data /\
    sent s' = (sent s ++ source_a_url (self s) base ::
                 if b then [cbr_url] else [])%list.
Proof.
  intros Hmiss Hnet Hrub Hpatch.
  rewrite (get_exchange_rates_miss _ _ _ _ Hmiss), Hnet, reconcile_run, Hrub.
  destruct b; simpl.
  - rewrite sent_looked, length_app, Nat.add_1_r. simpl.
    rewrite (Hpatch eq_refl). eexists. split; [done|]. simpl.
    by rewrite lookup_insert_eq, sent_looked, <- app_assoc.
  - eexists. split; [done|]. simpl.
    by rewrite lookup_insert_eq, sent_looked.
Qed.

(** X11: for a base currency other than USD and EUR the table of Source A
    is returned and cached as it came, whatever Source B answers; Source B
    is asked all the same when the table has a RUB rate. *)
Theorem other_base_is_never_patched base force w s data (b : bool) :
  upper base <> "USD" ->
  upper base <> "EUR" ->
  cache_hit w s base force = false ->
  net w (length (sent s)) (source_a_url (self s) base) = Parsed data ->
  has_rub data = Return b ->
  exists s',
    get_exchange_rates base force w s = (Return data, s') /\
    cache (self s') !! base = Some data /\
    sent s' = (sent s ++ source_a_url (self s) base ::
                 if b then [cbr_url] else [])%list.
Proof.
  intros Husd Heur Hmiss Hnet Hrub.
  apply unpatched_fetch; try done.
  intros _. apply apply_patch_same. by left.
Qed.

(** X12: when the patch of Source B has no entry for the base currency,
    the table of Source A is returned and cached as it came. *)
Theorem patch_without_entry_changes_nothing base force w s data patch :
  cache_hit w s base force = false ->
  net w (length (sent s)) (source_a_url (self s) base) = Parsed data ->
  has_rub data = Return true ->
  source_b (net w (S (length (sent s))) cbr_url) = Some patch ->
  patch !! upper base = None ->
  exists s',
    get_exchange_rates base force w s = (Return data, s') /\
    cache (self s') !! base = Some data.
Proof.
  intros Hmiss Hnet Hrub Hb Hnone.
  destruct (unpatched_fetch base force w s data true) as (s' & ? & ? & _);
    try done; [|by exists s'].
  intros _. apply apply_patch_same. right. rewrite Hb. by intros p [= <-].
Qed.

(** ** What Source B computes *)

Lemma obind_return {A B} (o : outcome A) (k : A -> outcome B) (b : B) :
  obind o k = Return b -> exists a, o = Return a /\ k a = Return b.
Proof. destruct o as [a|e]; simpl; [by exists a|done]. Qed.

Lemma per_unit_return (valute : json num) (code : string) (q : num) :
  per_unit valute code = Return q ->
  exists entry value nominal,
    subscript valute code = Return entry /\
    subscript entry "Value" = Return value /\
    subscript entry "Nominal" = Return nominal /\
    truediv value nominal = Return q.
Proof.
  unfold per_unit.
  intros (entry & He & Hq)%obind_return.
  apply obind_return in Hq as (value & Hv & Hq).
  apply obind_return in Hq as (entry' & He' & Hq).
  apply obind_return in Hq as (nominal & Hn & Hq).
  rewrite He in He'. injection He' as <-. by exists entry, value, nominal.
Qed.

(** X13: every entry of the patch that Source B returns is for USD or for
    EUR, and its value is the [Value] of that currency in the feed divided
    by its [Nominal]. *)
Theorem patch_entries_are_per_unit_rates
    (r : http_result num) (patch : gmap string num) (code : string) (q : num) :
  source_b r = Some patch ->
  patch !! code = Some q ->
  (code = "USD" \/ code = "EUR") /\
  exists data valute entry value nominal,
    r = Parsed data /\
    subscript data "Valute" = Return valute /\
    subscript valute code = Return entry /\
    subscript entry "Value" = Return value /\
    subscript entry "Nominal" = Return nominal /\
    truediv value nominal = Return q.
Proof.
  unfold source_b. destruct r as [| |data]; try done.
  destruct (rub_rates_of data) as [o|e] eqn:Hrates; [|done].
  intros -> Hq. unfold rub_rates_of in Hrates.
  apply obind_return in Hrates as (has_valute & _ & Hrates).
  destruct has_valute; simpl in Hrates; [|done].
  apply obind_return in Hrates as (valute & Hvalute & Hrates).
  apply obind_return in Hrates as (has_usd & _ & Hrates).
  apply obind_return in Hrates as (rates1 & Husd & Hrates).
  apply obind_return in Hrates as (has_eur & _ & Hrates).
  apply obind_return in Hrates as (rates2 & Heur & Hrates).
  injection Hrates as <-.
  assert (forall code' q',
            rates1 !! code' = Some q' ->
            code' = "USD" /\ per_unit valute "USD" = Return q') as Hrates1.
  { intros code' q' Hin. destruct has_usd.
    - apply obind_return in Husd as (qu & Hqu & [= <-]).
      destruct (decide (code' = "USD")) as [->|Hne].
      + rewrite lookup_insert_eq in Hin. by simplify_eq.
      + by rewrite lookup_insert_ne, lookup_empty in Hin.
    - injection Husd as <-. by rewrite lookup_empty in Hin. }
  assert (per_unit valute code = Return q /\ (code = "USD" \/ code = "EUR"))
    as [Hper Hcode].
  { destruct has_eur.
    - apply obind_return in Heur as (qe & Hqe & [= <-]).
      destruct (decide (code = "EUR")) as [->|Hne].
      + rewrite lookup_insert_eq in Hq. simplify_eq. by split; [|right].
      + rewrite lookup_insert_ne in Hq by done.
        destruct (Hrates1 _ _ Hq) as [-> ?]. by split; [|left].
    - injection Heur as <-. destruct (Hrates1 _ _ Hq) as [-> ?].
      by split; [|left]. }
  split; [done|].
  apply per_unit_return in Hper as (entry & value & nominal & ? & ? & ? & ?).
  by exists data, valute, entry, value, nominal.
Qed.

(** X14: Source B is all or nothing: when the rate of one of the two
    currencies listed in the feed cannot be computed (a field is missing,
    is not a number, or the [Nominal] is zero), there is no patch at all,
    whatever the entry of the other currency says. *)
Theorem bad_entry_discards_patch (data valute : json num) (code : string) e :
  code = "USD" \/ code = "EUR" ->
  subscript data "Valute" = Return valute ->
  contains code valute = Return true ->
  per_unit valute code = Raise e ->
  source_b (Parsed data) = None.
Proof.
  intros Hcode Hvalute Hin Hbad.
  assert (contains "Valute" data = Return true) as Hhas.
  { destruct data as [| | | | |m]; try done. simpl in *.
    by destruct (m !! "Valute"). }
  unfold source_b, rub_rates_of. rewrite Hhas. simpl. rewrite Hvalute. simpl.
  destruct Hcode as [-> | ->].
  - by rewrite Hin, Hbad.
  - destruct (contains "USD" valute) as [[]|]; simpl; [|by rewrite Hin, Hbad|done].
    destruct (per_unit valute "USD"); simpl; [|done].
    by rewrite Hin, Hbad.
Qed.

(** ** What the queries return *)

(** X15: a target currency that the fetched table does not list is not an
    error: [convert] and [get_rate] return [None], and the state is the one
    the fetch left. *)
Theorem unknown_target_gives_none (amount : num) from to force w s d r s' :
  upper from <> upper to ->
  get_exchange_rates (upper from)
    (if rub_involved from to then true else force) w s
  = (Return (JObj d), s') ->
  d !! "rates" = Some (JObj r) ->
  r !! upper to = None ->
  convert amount from to force w s = (Return JNull, s') /\
  get_rate from to force w s = (Return JNull, s').
Proof.
  intros Hne%String.eqb_neq Hget Hd Hr.
  assert (truth (JObj d) = true) as Htruth.
  { destruct (truth (JObj d)) eqn:E; [done|].
    apply truth_obj in E. subst d. by rewrite lookup_empty in Hd. }
  unfold convert, get_rate. rewrite Hne. unfold mbind. rewrite Hget.
  unfold no_rates. rewrite Htruth. unfold mbind, lift, mret. simpl.
  rewrite Hd. simpl. by rewrite Hr.
Qed.

(** X16: when there is no fresh entry and Source A fails, the queries fail
    softly: [convert] and [get_rate] return [None], and
    [get_available_currencies] returns the empty list; none of them
    raises and the converter is left as it was. *)
Theorem queries_fail_softly (amount : num) from to force w s :
  upper from <> upper to ->
  cache_hit w s (upper from) false = false ->
  net w (length (sent s)) (source_a_url (self s) (upper from)) = RequestFailed \/
  net w (length (sent s)) (source_a_url (self s) (upper from)) = BodyInvalid ->
  exists s1 s2,
    convert amount from to force w s = (Return JNull, s1) /\
    get_rate from to force w s = (Return JNull, s1) /\
    get_available_currencies from w s = (Return [], s2) /\
    self s1 = self s /\
    self s2 = self s.
Proof.
  intros Hne Hmiss Hnet.
  assert (forall f,
            cache_hit w s (upper from) f = false /\
            get_exchange_rates (upper from) f w s
            = (Return JNull,
               asked (source_a_url (self s) (upper from))
                 (looked s (upper from) f))) as Hget.
  { intros f.
    assert (cache_hit w s (upper from) f = false) as Hf by by destruct f.
    split; [done|]. rewrite (get_exchange_rates_miss _ _ _ _ Hf).
    by destruct Hnet as [-> | ->]. }
  destruct (queries_fail_without_rates amount from to from force w s JNull
              (asked (source_a_url (self s) (upper from))
                 (looked s (upper from)
                    (if rub_involved from to then true else force))))
    as [Hq _]; [by left|].
  destruct (queries_fail_without_rates amount from to from force w s JNull
              (asked (source_a_url (self s) (upper from))
                 (looked s (upper from) false)))
    as [_ Hl]; [by left|].
  destruct (Hq Hne (proj2 (Hget _))) as [Hc Hr].
  eexists _, _. split; [exact Hc|]. split; [exact Hr|].
  split; [exact (Hl (proj2 (Hget _)))|].
  simpl. by rewrite !self_looked.
Qed.

(** X17: [convert] and [get_rate] agree: for two different currencies, when
    [get_rate] returns a number, [convert] returns the amount times that
    number, from the same fetch and with the same state afterwards. *)
Theorem convert_multiplies_the_rate (amount : num) from to force w s r s' :
  upper from <> upper to ->
  get_rate from to force w s = (Return (JNum r), s') ->
  convert amount from to force w s
  = (obind (num_mul amount r) (fun p => Return (JNum p)), s').
Proof.
  intros Hne%String.eqb_neq. unfold convert, get_rate. rewrite Hne.
  unfold mbind, no_rates, mbind, lift, mret.
  destruct (get_exchange_rates _ _ w s) as [[rates_data|e] s1]; [|done].
  destruct (negb (truth rates_data)); [done|].
  destruct (contains "rates" rates_data) as [[]|]; simpl; try done.
  destruct (subscript rates_data "rates") as [rates|]; [|done].
  destruct (contains (upper to) rates) as [[]|]; simpl; try done.
  destruct (subscript rates (upper to)) as [rate|]; [|done].
  by intros [= -> ->].
Qed.

(** X18: a rate that [get_rate] returns for two different currencies is
    the one recorded in the cache afterwards: the entry of the [from]
    currency holds it under the [to] currency. *)
Theorem rate_is_the_cached_one from to force w s (rate : json num) s' :
  upper from <> upper to ->
  get_rate from to force w s = (Return rate, s') ->
  rate <> JNull ->
  exists table rates,
    cache (self s') !! upper from = Some table /\
    subscript table "rates" = Return rates /\
    subscript rates (upper to) = Return rate.
Proof.
  intros Hne%String.eqb_neq. unfold get_rate. rewrite Hne.
  unfold mbind, no_rates, mbind, lift, mret.
  destruct (get_exchange_rates _ _ w s) as [[rates_data|e] s1] eqn:Hget;
    [|done].
  destruct (truth rates_data) eqn:Htruth; simpl; [|congruence].
  destruct (contains "rates" rates_data) as [[]|]; simpl; try congruence.
  destruct (subscript rates_data "rates") as [rates|] eqn:Hrates; [|done].
  destruct (contains (upper to) rates) as [[]|]; simpl; try congruence.
  destruct (subscript rates (upper to)) as [rate'|] eqn:Hrate; [|done].
  intros [= -> ->] _.
  exists rates_data, rates. split; [|done].
  eapply get_exchange_rates_stores; [exact Hget|].
  intros ->. done.
Qed.

(** X19: the rate shown after a conversion is the rate that was used: for
    two different currencies, neither of them RUB, when [convert] returned
    an amount, a [get_rate] for the same pair that follows while the entry
    is fresh sends no request and returns the rate by which [convert]
    multiplied. *)
Theorem rate_after_conversion_is_the_one_used
    (amount : num) from to force w s (result : json num) s1 :
  upper from <> upper to ->
  rub_involved from to = false ->
  convert amount from to force w s = (Return result, s1) ->
  result <> JNull ->
  exists stamp rate,
    cache_timestamps (self s1) !! upper from = Some stamp /\
    mul amount rate = Return result /\
    (clock w (reads s1) - stamp < cache_duration (self s1) ->
     get_rate from to false w s1 = (Return rate, tick s1)).
Proof.
  intros Hne%String.eqb_neq Hrub. unfold convert, get_rate.
  rewrite Hne, Hrub. unfold mbind at 1.
  destruct (get_exchange_rates _ _ w s) as [[rates_data|e] s1'] eqn:Hget;
    [|done].
  unfold mbind, no_rates, mbind, lift, mret.
  destruct (truth rates_data) eqn:Htruth; simpl; [|congruence].
  destruct (contains "rates" rates_data) as [[]|] eqn:Hhas; simpl;
    try congruence.
  destruct (subscript rates_data "rates") as [rates|] eqn:Hrates; [|done].
  destruct (contains (upper to) rates) as [[]|] eqn:Hknown; simpl;
    try congruence.
  destruct (subscript rates (upper to)) as [rate|] eqn:Hrate; [|done].
  intros [= Hmul ->] _.
  assert (rates_data <> JNull) as Hnot by (intros ->; done).
  destruct (get_exchange_rates_stores _ _ _ _ _ _ Hget Hnot)
    as [Hc [stamp Ht]].
  exists stamp, rate. split; [done|]. split; [done|]. intros Hage.
  assert (cache_hit w s1 (upper from) false = true) as Hhit.
  { apply cache_hit_true. split; [done|]. by exists rates_data, stamp. }
  destruct (get_exchange_rates_hit _ _ _ _ Hhit) as (t & Hc' & ->).
  simplify_eq. rewrite Htruth. simpl. rewrite Hhas. simpl.
  by rewrite Hrates, Hknown, Hrate.
Qed.

End Further.

(** * The properties on the data of the examples *)

Import Float.

Lemma available_currencies_sorted_witness :
  exists l,
    get_available_currencies "usd" unpatched_world (boot api)
    = (Return l, warm unpatched_world) /\
    Sorted String.le l /\
    l ≡ₚ ((map_to_list usd_rates).*1 ++ ["USD"])%list /\
    (forall code : string,
       code ∈ l <-> is_Some (usd_rates !! code) \/ code = "USD") /\
    (NoDup l <-> usd_rates !! "USD" = None).
Proof.
  apply (available_currencies_sorted
           "usd" unpatched_world (boot api) usd_table usd_rates);
    vm_compute; reflexivity.
Defined.

(** The example of the specification: the table [{EUR, RUB}] of the
    dollar. *)
Example available_currencies_usd :
  (get_available_currencies "USD" unpatched_world (boot api)).1
  = Return ["EUR"; "RUB"; "USD"].
Proof. vm_compute. reflexivity. Qed.

(** C1, as stated, fails: a table that lists its base currency gives the
    base currency twice. *)
Lemma available_currencies_duplicate :
  (get_exchange_rates "USD" false listed_world (boot api)).1
  = Return (JObj {[ "rates" := JObj usd_rates_with_base ]}) /\
  (get_available_currencies "USD" listed_world (boot api)).1
  = Return ["EUR"; "USD"; "USD"] /\
  ~ NoDup ["EUR"; "USD"; "USD"].
Proof.
  split; [vm_compute; reflexivity|]. split; [vm_compute; reflexivity|].
  intros Hdup. apply NoDup_cons_1_2, NoDup_cons_1_1 in Hdup.
  apply Hdup. by left.
Qed.

Lemma table_without_rates_is_cached_witness :
  exists s',
    get_exchange_rates "XXX" false error_world (boot api)
    = (Return error_body, s') /\
    cache (self s') !! "XXX" = Some error_body /\
    is_Some (cache_timestamps (self s') !! "XXX") /\
    sent s' = ([] ++ [source_a_url (init (num:=float) api) "XXX"])%list.
Proof.
  apply (table_without_rates_is_cached error_world (boot api) "XXX" false
           error_body).
  - vm_compute. reflexivity.
  - vm_compute. reflexivity.
  - right. vm_compute. reflexivity.
Defined.

(** C2, as stated, fails: a body that parses and holds no rates is
    returned, not a failure, and it is stored in the cache. *)
Lemma body_without_rates_is_returned_and_cached :
  contains "rates" error_body = Return false /\
  (get_exchange_rates "XXX" false error_world (boot api)).1
  = Return error_body /\
  error_body <> JNull /\
  cache (self (get_exchange_rates "XXX" false error_world (boot api)).2)
    !! "XXX" = Some error_body.
Proof.
  split; [vm_compute; reflexivity|]. split; [vm_compute; reflexivity|].
  split; [discriminate|]. vm_compute. reflexivity.
Qed.

Lemma queries_key_the_cache_in_upper_case_witness :
  let lower := [Convert 100%float "usd" "eur" false;
                Get_available_currencies "usd";
                Get_rate "eur" "usd" false] in
  let upper_case := [Convert 100%float "USD" "EUR" false;
                     Get_available_currencies "USD";
                     Get_rate "EUR" "USD" false] in
  run lower unpatched_world (boot api)
  = run upper_case unpatched_world (boot api) /\
  (forall k,
     is_Some (cache (self (run lower unpatched_world (boot api))) !! k) ->
     upper k = k) /\
  (forall k1 k2,
     is_Some (cache (self (run lower unpatched_world (boot api))) !! k1) ->
     is_Some (cache (self (run lower unpatched_world (boot api))) !! k2) ->
     upper k1 = upper k2 -> k1 = k2).
Proof.
  apply (queries_key_the_cache_in_upper_case api unpatched_world).
  repeat constructor.
Defined.

(** C3, as stated, fails: [get_exchange_rates] called with ["usd"] and
    with ["USD"] makes two entries for one code. *)
Lemma direct_fetch_keys_by_the_code_as_given :
  let s := run [Get_exchange_rates "usd" false; Get_exchange_rates "USD" false]
             unpatched_world (boot api) in
  upper "usd" = upper "USD" /\
  "usd" <> "USD" /\
  cache (self s) !! "usd" = Some (JObj usd_table) /\
  cache (self s) !! "USD" = Some (JObj usd_table).
Proof.
  split; [reflexivity|]. split; [discriminate|].
  split; vm_compute; reflexivity.
Qed.

Lemma fresh_entry_is_returned_witness :
  exists s',
    get_exchange_rates "USD" false unpatched_world (warm unpatched_world)
    = (Return (JObj usd_table), s') /\
    self s' = self (warm unpatched_world) /\
    sent s' = sent (warm unpatched_world).
Proof.
  apply (fresh_entry_is_returned unpatched_world (warm unpatched_world)
           "USD" (JObj usd_table) 0); vm_compute; reflexivity.
Defined.

Lemma rub_rate_is_patched_witness :
  exists s' r',
    get_exchange_rates "USD" false patched_world (boot api)
    = (Return (JObj (<["rates" := JObj r']> usd_table)), s') /\
    cache (self s') !! "USD" = Some (JObj (<["rates" := JObj r']> usd_table)) /\
    r' !! "RUB" = Some (JNum 91.5%float) /\
    forall code' : string, code' <> "RUB" -> r' !! code' = usd_rates !! code'.
Proof.
  apply (rub_rate_is_patched patched_world (boot api) "USD" false "USD"
           usd_table usd_rates (JNum 95%float) {[ "USD" := 91.5%float ]}
           91.5%float).
  - vm_compute. reflexivity.
  - left. reflexivity.
  - reflexivity.
  - vm_compute. reflexivity.
  - vm_compute. reflexivity.
  - vm_compute. reflexivity.
  - vm_compute. reflexivity.
  - vm_compute. reflexivity.
Defined.

(** The example of the specification: Source A gives
    [{EUR: 0.9, RUB: 95.0}] for the dollar and Source B gives
    [{USD: 91.5}]. *)
Example cached_usd_table_is_patched :
  let s := warm patched_world in
  exists d r,
    cache (self s) !! "USD" = Some (JObj d) /\
    d !! "rates" = Some (JObj r) /\
    r !! "RUB" = Some (JNum 91.5%float) /\
    r !! "EUR" = Some (JNum 0.9%float).
Proof.
  eexists _, _. repeat split; vm_compute; reflexivity.
Qed.

(** The feed quotes a lot: the patch holds the rate of one unit. *)
Example source_b_per_unit :
  source_b (Parsed (feed 915%float 10%float))
  = Some {[ "USD" := 91.5%float ]}.
Proof. vm_compute. reflexivity. Qed.

Example convert_100_usd_to_eur :
  (convert 100%float "USD" "EUR" false patched_world (boot api)).1
  = Return (JNum 90%float).
Proof. vm_compute. reflexivity. Qed.

Lemma source_b_failure_is_absorbed_witness :
  (forall s2, length (sent s2) = 1%nat ->
     (_get_rub_rate_from_cbr unpatched_world s2).1 = Return None) /\
  exists s',
    get_exchange_rates "USD" false unpatched_world (boot api)
    = (Return (JObj usd_table), s') /\
    cache (self s') !! "USD" = Some (JObj usd_table) /\
    is_Some (cache_timestamps (self s') !! "USD").
Proof.
  apply (source_b_failure_is_absorbed unpatched_world (boot api) "USD" false
           usd_table usd_rates).
  - vm_compute. reflexivity.
  - vm_compute. reflexivity.
  - vm_compute. reflexivity.
  - apply cbr_network.
Defined.

Lemma source_a_failure_keeps_cache_witness :
  exists s',
    get_exchange_rates "USD" true down_world (warm unpatched_world)
    = (Return JNull, s') /\
    cache (self s') = cache (self (warm unpatched_world)) /\
    cache_timestamps (self s') = cache_timestamps (self (warm unpatched_world)) /\
    sent s' = (sent (warm unpatched_world)
               ++ [source_a_url (self (warm unpatched_world)) "USD"])%list.
Proof.
  apply (source_a_failure_keeps_cache down_world (warm unpatched_world)
           "USD" true).
  - vm_compute. reflexivity.
  - left. vm_compute. reflexivity.
Defined.

Lemma same_currency_short_circuit_witness :
  convert 100%float "zzz" "ZZZ" false down_world (boot api)
  = (Return (JNum 100%float), boot api) /\
  get_rate "zzz" "ZZZ" false down_world (boot api)
  = (Return (JNum 1%float), boot api).
Proof.
  refine (same_currency_short_circuit 100%float "zzz" "ZZZ" false
            down_world (boot api) _).
  reflexivity.
Defined.

Lemma rub_forces_fetch_witness :
  let s := warm patched_world in
  sent (convert 100%float "usd" "rub" false patched_world s).2
  = (sent s ++ [source_a_url (self s) "USD"; cbr_url])%list /\
  sent (get_rate "usd" "rub" false patched_world s).2
  = (sent s ++ [source_a_url (self s) "USD"; cbr_url])%list.
Proof.
  apply (rub_forces_fetch 100%float "usd" "rub" false patched_world
           (warm patched_world)).
  - discriminate.
  - reflexivity.
Defined.

(** C9, as stated, fails: when Source A fails, Source B is not asked. *)
Lemma source_b_is_not_asked_when_source_a_fails :
  rub_involved "USD" "RUB" = true /\
  sent (convert 100%float "USD" "RUB" false down_world (boot api)).2
  = [source_a_url (init (num:=float) api) "USD"] /\
  sent (get_rate "USD" "RUB" false down_world (boot api)).2
  = [source_a_url (init (num:=float) api) "USD"] /\
  cbr_url ∉ [source_a_url (init (num:=float) api) "USD"].
Proof.
  split; [reflexivity|]. split; [vm_compute; reflexivity|].
  split; [vm_compute; reflexivity|].
  intros Hin%list_elem_of_singleton. discriminate.
Qed.

(** * The further properties on the data of the examples *)

Lemma no_eviction_witness :
  is_Some
    (cache (self (run [Get_exchange_rates "EUR" false;
                       Convert 100%float "gbp" "rub" false;
                       Get_available_currencies "chf"]
                    unpatched_world (warm unpatched_world))) !! "USD").
Proof.
  apply (no_eviction unpatched_world _ (warm unpatched_world) "USD").
  - repeat constructor; discriminate.
  - vm_compute. eauto.
Defined.

Lemma returned_table_is_served_again_witness :
  cache (self (warm unpatched_world)) !! "USD" = Some (JObj usd_table) /\
  exists stamp,
    cache_timestamps (self (warm unpatched_world)) !! "USD" = Some stamp /\
    (clock unpatched_world (reads (warm unpatched_world)) - stamp
     < cache_duration (self (warm unpatched_world)) ->
     get_exchange_rates "USD" false unpatched_world (warm unpatched_world)
     = (Return (JObj usd_table), tick (warm unpatched_world))).
Proof.
  apply (returned_table_is_served_again "USD" false unpatched_world (boot api)).
  - vm_compute. reflexivity.
  - discriminate.
Defined.


Lemma get_exchange_rates_returns_witness :
  exists table s',
    get_exchange_rates "USD" false patched_world (boot api)
    = (Return table, s').
Proof.
  apply (get_exchange_rates_returns "USD" false patched_world (boot api)).
  intros data Hdata. vm_compute in Hdata. injection Hdata as <-.
  eexists. split; [reflexivity|]. right. eexists. vm_compute. reflexivity.
Defined.


Lemma failed_refresh_keeps_entry_witness :
  exists s1,
    get_exchange_rates "USD" true down_world (warm unpatched_world)
    = (Return JNull, s1) /\
    get_exchange_rates "USD" false down_world s1
    = (Return (JObj usd_table), tick s1).
Proof.
  apply (failed_refresh_keeps_entry "USD" down_world (warm unpatched_world)
           (JObj usd_table) 0).
  - vm_compute. reflexivity.
  - vm_compute. reflexivity.
  - left. vm_compute. reflexivity.
  - vm_compute. reflexivity.
Defined.

Lemma other_base_is_never_patched_witness :
  exists s',
    get_exchange_rates "gbp" false patched_world (boot api)
    = (Return (JObj usd_table), s') /\
    cache (self s') !! "gbp" = Some (JObj usd_table) /\
    sent s' = ([] ++ [source_a_url (init (num:=float) api) "gbp"; cbr_url])%list.
Proof.
  apply (other_base_is_never_patched "gbp" false patched_world (boot api)
           (JObj usd_table) true).
  - discriminate.
  - discriminate.
  - vm_compute. reflexivity.
  - vm_compute. reflexivity.
  - vm_compute. reflexivity.
Defined.

Lemma patch_without_entry_changes_nothing_witness :
  exists s',
    get_exchange_rates "EUR" false patched_world (boot api)
    = (Return (JObj usd_table), s') /\
    cache (self s') !! "EUR" = Some (JObj usd_table).
Proof.
  apply (patch_without_entry_changes_nothing "EUR" false patched_world
           (boot api) (JObj usd_table) {[ "USD" := 91.5%float ]}).
  - vm_compute. reflexivity.
  - vm_compute. reflexivity.
  - vm_compute. reflexivity.
  - vm_compute. reflexivity.
  - vm_compute. reflexivity.
Defined.

Lemma patch_entries_are_per_unit_rates_witness :
  ("USD" = "USD" \/ "USD" = "EUR") /\
  exists data valute entry value nominal,
    Parsed (feed 915%float 10%float) = Parsed data /\
    subscript data "Valute" = Return valute /\
    subscript valute "USD" = Return entry /\
    subscript entry "Value" = Return value /\
    subscript entry "Nominal" = Return nominal /\
    truediv value nominal = Return 91.5%float.
Proof.
  apply (patch_entries_are_per_unit_rates (Parsed (feed 915%float 10%float))
           {[ "USD" := 91.5%float ]} "USD" 91.5%float).
  - vm_compute. reflexivity.
  - vm_compute. reflexivity.
Defined.

Lemma bad_entry_discards_patch_witness :
  source_b (Parsed bad_feed) = None.
Proof.
  apply (bad_entry_discards_patch bad_feed bad_valute "EUR" ZeroDivisionError).
  - right. reflexivity.
  - vm_compute. reflexivity.
  - vm_compute. reflexivity.
  - vm_compute. reflexivity.
Defined.

Lemma unknown_target_gives_none_witness :
  convert 100%float "usd" "zzz" false unpatched_world (boot api)
  = (Return JNull, warm unpatched_world) /\
  get_rate "usd" "zzz" false unpatched_world (boot api)
  = (Return JNull, warm unpatched_world).
Proof.
  apply (unknown_target_gives_none 100%float "usd" "zzz" false unpatched_world
           (boot api) usd_table usd_rates).
  - discriminate.
  - vm_compute. reflexivity.
  - vm_compute. reflexivity.
  - vm_compute. reflexivity.
Defined.

Lemma queries_fail_softly_witness :
  exists s1 s2,
    convert 100%float "usd" "eur" false down_world (boot api)
    = (Return JNull, s1) /\
    get_rate "usd" "eur" false down_world (boot api) = (Return JNull, s1) /\
    get_available_currencies "usd" down_world (boot api) = (Return [], s2) /\
    self s1 = self (boot api) /\
    self s2 = self (boot api).
Proof.
  apply (queries_fail_softly 100%float "usd" "eur" false down_world (boot api)).
  - discriminate.
  - vm_compute. reflexivity.
  - left. vm_compute. reflexivity.
Defined.

Lemma convert_multiplies_the_rate_witness :
  convert 100%float "usd" "eur" false unpatched_world (boot api)
  = (obind (num_mul 100%float 0.9%float) (fun p => Return (JNum p)),
     warm unpatched_world).
Proof.
  apply (convert_multiplies_the_rate 100%float "usd" "eur" false
           unpatched_world (boot api)).
  - discriminate.
  - vm_compute. reflexivity.
Defined.

Lemma rate_is_the_cached_one_witness :
  exists table rates,
    cache (self (warm unpatched_world)) !! upper "usd" = Some table /\
    subscript table "rates" = Return rates /\
    subscript rates (upper "eur") = Return (JNum 0.9%float).
Proof.
  apply (rate_is_the_cached_one "usd" "eur" false unpatched_world (boot api)).
  - discriminate.
  - vm_compute. reflexivity.
  - discriminate.
Defined.

Lemma rate_after_conversion_is_the_one_used_witness :
  exists stamp rate,
    cache_timestamps (self (warm unpatched_world)) !! upper "usd" = Some stamp /\
    mul 100%float rate = Return (JNum 90%float) /\
    (clock unpatched_world (reads (warm unpatched_world)) - stamp
     < cache_duration (self (warm unpatched_world)) ->
     get_rate "usd" "eur" false unpatched_world (warm unpatched_world)
     = (Return rate, tick (warm unpatched_world))).
Proof.
  apply (rate_after_conversion_is_the_one_used 100%float "usd" "eur" false
           unpatched_world (boot api)).
  - discriminate.
  - reflexivity.
  - vm_compute. reflexivity.
  - discriminate.
Defined.
